(** * Frontend manager: a shallow embedding of
      [scripts/apps/webapp/frontend_manager.py]

    The Python class [FrontendManager] supervises a React development
    server: it resolves the project directory, tries a list of candidate
    ports, installs dependencies, spawns the server, waits for readiness and
    stops it.  Every interaction with the outside world (file system, process
    table, HTTP, clock) is answered by an oracle [Env] indexed by the number
    of external calls made so far, so that a statement quantified over [Env]
    covers every behaviour of the environment.  The manager object and the
    list of performed effects are threaded explicitly through a small
    state-and-exception monad. *)

From Stdlib Require Import ZArith NArith List String Ascii Bool Lia DecimalString.
From Stdlib Require DecimalPos.
Import ListNotations.

Local Open Scope string_scope.
Local Open Scope list_scope.
Local Open Scope Z_scope.

Infix "+++" := String.append (at level 60, right associativity).

(** ** Python exceptions *)

Inductive Exc : Type :=
| TimeoutExpired                    (* subprocess.TimeoutExpired *)
| ClientError (msg : string)        (* aiohttp.ClientError and subclasses *)
| AccessDenied                      (* psutil.AccessDenied *)
| AttributeError (msg : string)
| UnboundLocalError (name : string)
| ValueError (msg : string)
| OtherException (msg : string).    (* any other subclass of Exception *)

(** [except Exception]: all the exceptions above are subclasses of
    [Exception]. *)
Definition is_Exception (e : Exc) : bool := true.

Definition is_ClientError (e : Exc) : bool :=
  match e with ClientError _ => true | _ => false end.

Definition is_TimeoutExpired (e : Exc) : bool :=
  match e with TimeoutExpired => true | _ => false end.

Definition is_AccessDenied_or_AttributeError (e : Exc) : bool :=
  match e with AccessDenied | AttributeError _ => true | _ => false end.

(** [str(e)] *)
Definition exc_str (e : Exc) : string :=
  match e with
  | TimeoutExpired => "TimeoutExpired"
  | ClientError m => m
  | AccessDenied => "AccessDenied"
  | AttributeError m => m
  | UnboundLocalError n =>
      "cannot access local variable '" +++ n +++ "' where it is not associated with a value"
  | ValueError m => m
  | OtherException m => m
  end.

(** ** Strings: decimal printing, [str.split], paths *)

(** [str(n)] for a Python int. *)
Definition str_of_int (n : Z) : string := NilZero.string_of_int (Z.to_int n).

(** [repr] of a list of ints, as an f-string prints it: [[3000, 3001]]. *)
Fixpoint join_ints (l : list Z) : string :=
  match l with
  | [] => ""
  | [x] => str_of_int x
  | x :: r => str_of_int x +++ ", " +++ join_ints r
  end.

Definition repr_int_list (l : list Z) : string := "[" +++ join_ints l +++ "]".

(** The blanks of the ASCII range, for [str.split] on the start command. *)
Definition is_space (c : ascii) : bool :=
  let n := nat_of_ascii c in
  ((9 <=? n) && (n <=? 13) || (28 <=? n) && (n <=? 32))%nat.

(** [str.split()] on runs of whitespace. *)
Fixpoint split_acc (cur : string) (s : string) : list string :=
  match s with
  | EmptyString => match cur with EmptyString => [] | _ => [cur] end
  | String c r =>
      if is_space c
      then match cur with
           | EmptyString => split_acc EmptyString r
           | _ => cur :: split_acc EmptyString r
           end
      else split_acc (cur +++ String c EmptyString) r
  end.

Definition split (s : string) : list string := split_acc EmptyString s.

(** [pathlib]: [p / q], on paths kept as strings. *)
Definition path_join (p q : string) : string := p +++ "/" +++ q.

(** ** Data model *)

(** A [subprocess.Popen] object, as far as the manager reads it. *)
Record Popen : Type := { popen_pid : Z }.

(** An open file object: its path and the call index at which it was
    opened (two opens of one path give two objects). *)
Record Handle : Type := { h_path : string; h_id : nat }.

(** The dictionary passed to the constructor; [None] is an absent key. *)
Record RawConfig : Type := {
  raw_enabled : option bool;
  raw_path : option string;
  raw_start_port : option Z;
  raw_fallback_ports : option (list Z);
  raw_start_command : option string;
  raw_build_command : option string;
  raw_timeout_seconds : option Z;
  raw_max_attempts : option Z
}.

Definition empty_config : RawConfig :=
  {| raw_enabled := None; raw_path := None; raw_start_port := None;
     raw_fallback_ports := None; raw_start_command := None;
     raw_build_command := None; raw_timeout_seconds := None;
     raw_max_attempts := None |}.

(** The attributes set once by [__init__]. *)
Record Config : Type := {
  enabled : bool;
  frontend_path : option string;
  start_port : Z;
  fallback_ports : list Z;
  start_command : string;
  build_command : string;
  timeout_seconds : Z;
  max_attempts : Z
}.

(** The attributes under the comment "Etat runtime". *)
Record Runtime : Type := {
  process : option Popen;
  current_port : option Z;
  current_url : option string;
  pid : option Z;
  frontend_stdout_log_file : option Handle;
  frontend_stderr_log_file : option Handle
}.

Record FrontendManager : Type := { config : Config; runtime : Runtime }.

Definition no_runtime : Runtime :=
  {| process := None; current_port := None; current_url := None; pid := None;
     frontend_stdout_log_file := None; frontend_stderr_log_file := None |}.

(** The dictionaries returned by [start_with_failover] and [_start_on_port];
    [None] is an absent key. *)
Record Result : Type := {
  success : bool;
  url : option string;
  port : option Z;
  result_pid : option Z;
  error : option string
}.

Definition failure (msg : string) : Result :=
  {| success := false; url := None; port := None; result_pid := None;
     error := Some msg |}.

(** The dictionary returned by [get_status]. *)
Record Status : Type := {
  status_enabled : bool;
  status_running : bool;
  status_port : option Z;
  status_url : option string;
  status_pid : option Z;
  status_path : string;
  status_process : option Popen
}.

(** Python values that the entry point tests for truth. *)
Inductive pyval : Type :=
| PyNone
| PyBool (b : bool)
| PyResult (r : Result)
| PyStatus (s : Status).

Definition truthy (v : pyval) : bool :=
  match v with
  | PyNone => false
  | PyBool b => b
  | PyResult _ => true      (* a non-empty dict *)
  | PyStatus _ => true
  end.

(** Truth of an optional string: [None] and [""] are false. *)
Definition truthy_str (s : option string) : bool :=
  match s with
  | None | Some EmptyString => false
  | Some _ => true
  end.

(** ** Effects *)

Inductive Level : Type := Info | Warning | Error | Critical.

(** One constructor per [self.logger] call of the module, with the values
    its f-string prints. *)
Inductive Msg : Type :=
| MsgConfiguredPath (p : string)
| MsgAutoDetected (p : string)
| MsgPathNotFound
| MsgTry (port : Z)
| MsgOccupied (port : Z)
| MsgExhausted (text : string)
| MsgExec (cmd : string)
| MsgStarted (pid : Z) (url : option string)
| MsgCriticalStart (port : Z) (e : string)
| MsgInstalling
| MsgInstallFailed (stderr : string)
| MsgInstalled
| MsgInstallTimeout
| MsgInstallError (e : string)
| MsgExitedEarly (code : Z)
| MsgPortChanged (old new : Z)
| MsgConnecting (url : string)
| MsgResponse (url : string) (status : Z)
| MsgAccessible (url : string) (elapsed_ms : Z)
| MsgConnectFailed (url : string) (e : string)
| MsgReadyTimeout (url : string) (timeout : Z)
| MsgHealthOk
| MsgHealthFailed (e : string)
| MsgStopping (pid : Z)
| MsgStopped
| MsgStopError (e : string)
| MsgCloseError (which : string) (e : string)
| MsgCliUnavailable
| MsgCliBuildStart
| MsgCliBuildDone
| MsgCliBuildFailed
| MsgCliServerStart.

Inductive Event : Type :=
| EvLog (lvl : Level) (m : Msg)
| EvPathExists (p : string)
| EvNetConnections
| EvNpmInstall (cwd : option string)
| EvNpmCommunicate (timeout : Z)
| EvNpmKill
| EvMkdir (p : string)
| EvOpen (p : string) (mode : string)
| EvSpawn (cmd : list string) (cwd : option string) (env : list (string * string))
| EvPoll
| EvReadFile (p : string)
| EvHttpGet (url : string) (timeout : Z)
| EvSleep (seconds : Z)
| EvTerminate
| EvWait (timeout : option Z)
| EvKill
| EvClose (h : Handle).

(** One entry of [psutil.net_connections]; [laddr] may be the empty tuple,
    which has no [port] attribute. *)
Record Conn : Type := { laddr_port : option Z; conn_status : string }.

Definition CONN_LISTEN : string := "LISTEN".

(** What [communicate(timeout=120)] does: the install ends with a return
    code and a standard error (decodable or not), or the timeout expires, or
    it raises something else. *)
Inductive CommOutcome : Type :=
| CommDone (returncode : Z) (stderr : Exc + string)
| CommTimeout
| CommError (e : Exc).

(** A decoded file content: its Unicode code points. *)
Definition text : Type := list N.

Definition text_of_string (s : string) : text :=
  map N_of_ascii (list_ascii_of_string s).

(** The environment.  Every function of a [nat] is asked at the index of the
    external call being made.  The Unicode tables and the limit on integer
    strings belong to the interpreter that runs the module. *)
Record Env : Type := {
  cwd : string;                                   (* Path.cwd() *)
  win32 : bool;                                   (* sys.platform == "win32" *)
  os_environ : list (string * string);
  int_max_str_digits : nat;                       (* sys.get_int_max_str_digits(); 0: no limit *)
  unicode_isspace : N -> bool;                    (* str.isspace, asked above U+007F *)
  unicode_decimal : N -> option Z;                (* value of a character of category Nd, above U+007F *)
  delay : nat -> N;                               (* milliseconds a call takes *)
  path_exists : nat -> string -> Exc + bool;      (* Path.exists(), which may raise OSError *)
  net_connections : nat -> Exc + list Conn;
  npm_popen : nat -> option Exc;
  npm_communicate : nat -> CommOutcome;
  npm_kill : nat -> option Exc;
  mkdir : nat -> option Exc;
  open_file : nat -> string -> option Exc;
  popen : nat -> Exc + Z;                         (* the child's pid *)
  proc_poll : nat -> option Z;                    (* None while it runs *)
  read_file : nat -> string -> Exc + text;         (* the decoded content *)
  http_get : nat -> string -> Exc + Z;            (* the response status *)
  proc_terminate : nat -> option Exc;
  proc_wait : nat -> option Exc;
  proc_kill : nat -> option Exc;
  file_close : nat -> option Exc
}.

(** ** The announcement pattern on decoded text *)

Section Pattern.

Variable env : Env.

(** [\s] of a [str] pattern: [str.isspace]. *)
Definition isspace (c : N) : bool :=
  if (c <? 128)%N
  then ((9 <=? c) && (c <=? 13) || (28 <=? c) && (c <=? 32))%N
  else unicode_isspace env c.

(** The decimal value of a character that [\d] matches and [int] reads. *)
Definition decimal (c : N) : option Z :=
  if (c <? 128)%N
  then (if ((48 <=? c) && (c <=? 57))%N then Some (Z.of_N c - 48) else None)
  else unicode_decimal env c.

Definition isdecimal (c : N) : bool :=
  match decimal c with Some _ => true | None => false end.

Fixpoint strip_prefix (p s : text) : option text :=
  match p, s with
  | [], _ => Some s
  | a :: p', b :: s' => if (a =? b)%N then strip_prefix p' s' else None
  | _ :: _, [] => None
  end.

Fixpoint drop_while (f : N -> bool) (s : text) : text :=
  match s with
  | c :: r => if f c then drop_while f r else s
  | [] => []
  end.

Fixpoint take_while (f : N -> bool) (s : text) : text :=
  match s with
  | c :: r => if f c then c :: take_while f r else []
  | [] => []
  end.

(** The pattern [Local:\s+(http://localhost:(\d+))] anchored at the start of
    [s]; the result is group 2.  Both [\s+] and [\d+] are greedy; the letter
    that follows [\s+] is ASCII and no blank, so no backtracking occurs. *)
Definition match_local_at (s : text) : option text :=
  match strip_prefix (text_of_string "Local:") s with
  | Some (c :: r) =>
      if isspace c then
        match strip_prefix (text_of_string "http://localhost:") (drop_while isspace r) with
        | Some d =>
            match take_while isdecimal d with
            | [] => None
            | ds => Some ds
            end
        | None => None
        end
      else None
  | _ => None
  end.

(** [re.search]: the leftmost match. *)
Fixpoint search_local (s : text) : option text :=
  match match_local_at s with
  | Some ds => Some ds
  | None =>
      match s with
      | _ :: r => search_local r
      | [] => None
      end
  end.

(** The number a run of decimal characters writes. *)
Fixpoint digits_value_acc (acc : Z) (ds : text) : Z :=
  match ds with
  | c :: r =>
      digits_value_acc (10 * acc + match decimal c with Some v => v | None => 0 end) r
  | [] => acc
  end.

Definition digits_value (ds : text) : Z := digits_value_acc 0 ds.

(** [sys.int_info.str_digits_check_threshold]: shorter strings are never
    checked against the limit. *)
Definition str_digits_check_threshold : nat := 640.

(** Whether [int] refuses a string of that many digits. *)
Definition exceeds_int_limit (digits : nat) : bool :=
  (str_digits_check_threshold <? digits)%nat
  && negb (int_max_str_digits env =? 0)%nat
  && (int_max_str_digits env <? digits)%nat.

(** [int(digits)] on a run of decimal characters: [ValueError] when the
    interpreter limits integer strings and the run is longer than the
    limit. *)
Definition python_int (digits : text) : Exc + Z :=
  if exceeds_int_limit (List.length digits)
  then inl (ValueError "Exceeds the limit for integer string conversion")
  else inr (digits_value digits).

End Pattern.

(** The manager object together with the world: number of external calls
    made, wall clock in milliseconds, effects performed so far. *)
Record St : Type := {
  mgr : FrontendManager;
  tick : nat;
  clock : Z;
  trace : list Event
}.

(** ** The monad: state and exceptions *)

Inductive Outcome (A : Type) : Type :=
| Return (a : A)
| Raise (e : Exc).
Arguments Return {A} a.
Arguments Raise {A} e.

Definition M (A : Type) : Type := St -> Outcome A * St.

Definition ret {A} (a : A) : M A := fun s => (Return a, s).

Definition raise {A} (e : Exc) : M A := fun s => (Raise e, s).

Definition bind {A B} (m : M A) (k : A -> M B) : M B :=
  fun s =>
    match m s with
    | (Return a, s') => k a s'
    | (Raise e, s') => (Raise e, s')
    end.

Declare Scope py_scope.
Delimit Scope py_scope with py.
Notation "x <- c1 ;; c2" := (bind c1 (fun x => c2))
  (at level 100, c1 at next level, right associativity) : py_scope.
Notation "' pat <- c1 ;; c2" := (bind c1 (fun x => match x with pat => c2 end))
  (at level 100, pat pattern, c1 at next level, right associativity) : py_scope.
Notation "c1 ;; c2" := (bind c1 (fun _ => c2))
  (at level 100, right associativity) : py_scope.
Local Open Scope py_scope.

(** [try: body except <catches> as e: handler e] *)
Definition try_except {A} (body : M A) (catches : Exc -> bool) (handler : Exc -> M A) : M A :=
  fun s =>
    match body s with
    | (Return a, s') => (Return a, s')
    | (Raise e, s') => if catches e then handler e s' else (Raise e, s')
    end.

(** [try: body finally: fin]; an exception of [fin] replaces the outcome. *)
Definition try_finally {A} (body : M A) (fin : M unit) : M A :=
  fun s =>
    match body s with
    | (o, s') =>
        match fin s' with
        | (Return _, s'') => (o, s'')
        | (Raise e, s'') => (Raise e, s'')
        end
    end.

Definition get_mgr : M FrontendManager := fun s => (Return (mgr s), s).

Definition set_runtime (f : Runtime -> Runtime) : M unit :=
  fun s =>
    (Return tt,
     {| mgr := {| config := config (mgr s); runtime := f (runtime (mgr s)) |};
        tick := tick s; clock := clock s; trace := trace s |}).

Definition with_process (v : option Popen) (r : Runtime) : Runtime :=
  {| process := v; current_port := current_port r; current_url := current_url r;
     pid := pid r; frontend_stdout_log_file := frontend_stdout_log_file r;
     frontend_stderr_log_file := frontend_stderr_log_file r |}.

Definition with_current_port (v : option Z) (r : Runtime) : Runtime :=
  {| process := process r; current_port := v; current_url := current_url r;
     pid := pid r; frontend_stdout_log_file := frontend_stdout_log_file r;
     frontend_stderr_log_file := frontend_stderr_log_file r |}.

Definition with_current_url (v : option string) (r : Runtime) : Runtime :=
  {| process := process r; current_port := current_port r; current_url := v;
     pid := pid r; frontend_stdout_log_file := frontend_stdout_log_file r;
     frontend_stderr_log_file := frontend_stderr_log_file r |}.

Definition with_pid (v : option Z) (r : Runtime) : Runtime :=
  {| process := process r; current_port := current_port r; current_url := current_url r;
     pid := v; frontend_stdout_log_file := frontend_stdout_log_file r;
     frontend_stderr_log_file := frontend_stderr_log_file r |}.

Definition with_stdout_log (v : option Handle) (r : Runtime) : Runtime :=
  {| process := process r; current_port := current_port r; current_url := current_url r;
     pid := pid r; frontend_stdout_log_file := v;
     frontend_stderr_log_file := frontend_stderr_log_file r |}.

Definition with_stderr_log (v : option Handle) (r : Runtime) : Runtime :=
  {| process := process r; current_port := current_port r; current_url := current_url r;
     pid := pid r; frontend_stdout_log_file := frontend_stdout_log_file r;
     frontend_stderr_log_file := v |}.

(** A logger call: recorded, takes no time. *)
Definition log (lvl : Level) (m : Msg) : M unit :=
  fun s =>
    (Return tt,
     {| mgr := mgr s; tick := tick s; clock := clock s;
        trace := trace s ++ [EvLog lvl m] |}).

(** [time.time()], in milliseconds. *)
Definition time_time : M Z := fun s => (Return (clock s), s).

Section WithEnv.

Variable env : Env.

(** An external call: recorded, answered by the oracle at the current
    index, and it lets [extra] milliseconds plus the oracle's delay pass. *)
Definition ext_for {A} (extra : Z) (ev : Event) (answer : nat -> A) : M A :=
  fun s =>
    (Return (answer (tick s)),
     {| mgr := mgr s; tick := S (tick s);
        clock := clock s + extra + Z.of_N (delay env (tick s));
        trace := trace s ++ [ev] |}).

Definition ext {A} (ev : Event) (answer : nat -> A) : M A := ext_for 0 ev answer.

(** An external call that may raise. *)
Definition ext_exc {A} (ev : Event) (answer : nat -> Exc + A) : M A :=
  x <- ext ev answer ;;
  match x with inl e => raise e | inr a => ret a end.

Definition ext_unit (ev : Event) (answer : nat -> option Exc) : M unit :=
  x <- ext ev answer ;;
  match x with Some e => raise e | None => ret tt end.

(** [await asyncio.sleep(seconds)] *)
Definition sleep (seconds : Z) : M unit :=
  ext_for (1000 * seconds) (EvSleep seconds) (fun _ => tt).

End WithEnv.

(** ** The methods of [FrontendManager] *)

Section Methods.

Variable env : Env.

Definition get_tick : M nat := fun s => (Return (tick s), s).

(** [Path(p).exists()] *)
Definition exists_ (p : string) : M bool :=
  ext_exc env (EvPathExists p) (fun t => path_exists env t p).

(** [try: body except c1 as e: h1 e except c2 as e: h2 e]: an exception
    raised inside a handler is not caught by the other one. *)
Definition try_except2 {A} (body : M A)
    (c1 : Exc -> bool) (h1 : Exc -> M A)
    (c2 : Exc -> bool) (h2 : Exc -> M A) : M A :=
  fun s =>
    match body s with
    | (Return a, s') => (Return a, s')
    | (Raise e, s') =>
        if c1 e then h1 e s' else if c2 e then h2 e s' else (Raise e, s')
    end.

(** *** [_find_frontend_path] *)

Definition candidate_paths : list string :=
  [ path_join (cwd env) "interface_web";
    path_join (cwd env) "frontend";
    path_join (cwd env) "services/web_api/interface-web-argumentative" ].

(** The [for path in candidate_paths] loop. *)
Fixpoint first_with_manifest (candidates : list string) : M (option string) :=
  match candidates with
  | [] => ret None
  | path :: rest =>
      found <- exists_ (path_join path "package.json") ;;
      if found then log Info (MsgAutoDetected path) ;; ret (Some path)
      else first_with_manifest rest
  end.

Definition _find_frontend_path (configured_path : option string) : M (option string) :=
  configured <-
    match configured_path with
    | Some p =>
        if truthy_str (Some p)
        then (present <- exists_ p ;; ret (if present then Some p else None))
        else ret None
    | None => ret None
    end ;;
  match configured with
  | Some p => log Info (MsgConfiguredPath p) ;; ret (Some p)
  | None =>
      detected <- first_with_manifest candidate_paths ;;
      match detected with
      | Some path => ret (Some path)
      | None => log Error MsgPathNotFound ;; ret None
      end
  end.

(** *** [__init__] *)

Definition dict_get {A} (v : option A) (default : A) : A :=
  match v with Some a => a | None => default end.

Definition __init__ (raw : RawConfig) : M unit :=
  path <- _find_frontend_path (raw_path raw) ;;
  fun s =>
    (Return tt,
     {| mgr :=
          {| config :=
               {| enabled := dict_get (raw_enabled raw) true;
                  frontend_path := path;
                  start_port := dict_get (raw_start_port raw) 3000;
                  fallback_ports := dict_get (raw_fallback_ports raw) [3001; 3002];
                  start_command := dict_get (raw_start_command raw) "npm start";
                  build_command := dict_get (raw_build_command raw) "npm run build";
                  timeout_seconds := dict_get (raw_timeout_seconds raw) 90;
                  max_attempts := dict_get (raw_max_attempts raw) 5 |};
             runtime := no_runtime |};
        tick := tick s; clock := clock s; trace := trace s |}).

(** *** [_is_port_occupied] *)

(** The [for conn in ...] loop: [inr true] is [return True], [inr false] is
    the end of the loop, [inl] the [AttributeError] of [conn.laddr.port]. *)
Fixpoint scan_connections (port : Z) (conns : list Conn) : Exc + bool :=
  match conns with
  | [] => inr false
  | conn :: rest =>
      match laddr_port conn with
      | None => inl (AttributeError "'tuple' object has no attribute 'port'")
      | Some p =>
          if (p =? port) && String.eqb (conn_status conn) CONN_LISTEN
          then inr true
          else scan_connections port rest
      end
  end.

(** The fallback enters [aiohttp.ClientSession()] with a plain [with];
    the session is an asynchronous context manager only (the module uses
    [aiohttp.ClientTimeout], hence aiohttp 3), so that [with] raises
    [TypeError] before any request; the bare [except] swallows it and the
    method goes on to [return False]. *)
Definition _is_port_occupied (port : Z) : M bool :=
  try_except
    (conns <- ext_exc env EvNetConnections (net_connections env) ;;
     match scan_connections port conns with
     | inl e => raise e
     | inr found => ret found
     end)
    is_AccessDenied_or_AttributeError
    (fun _ =>
       try_except
         (raise (OtherException "Use async with instead"))
         is_Exception
         (fun _ => ret false)).

(** *** [_ensure_dependencies]

    The method has no [return] statement: on every path it ends by falling
    off its body, so its value is [None]. *)
Definition _ensure_dependencies : M pyval :=
  m <- get_mgr ;;
  match frontend_path (config m) with
  | None => raise (OtherException "unsupported operand type(s) for /: 'NoneType' and 'str'")
  | Some fp =>
      let node_modules := path_join fp "node_modules" in
      present <- exists_ node_modules ;;
      (if negb present then
         log Info MsgInstalling ;;
         started <- ext env (EvNpmInstall (Some fp)) (npm_popen env) ;;
         match started with
         | Some e =>
             (* [Popen] raised: the local [process] is not bound, which the
                [TimeoutExpired] handler would read. *)
             if is_TimeoutExpired e then raise (UnboundLocalError "process")
             else log Error (MsgInstallError (exc_str e))
         | None =>
             try_except2
               (done <- ext env (EvNpmCommunicate 120) (npm_communicate env) ;;
                match done with
                | CommTimeout => raise TimeoutExpired
                | CommError e => raise e
                | CommDone returncode stderr =>
                    if negb (returncode =? 0) then
                      match stderr with
                      | inl e => raise e
                      | inr text => log Error (MsgInstallFailed text)
                      end
                    else log Info MsgInstalled
                end)
               is_TimeoutExpired
               (fun _ => ext_unit env EvNpmKill (npm_kill env) ;; log Error MsgInstallTimeout)
               is_Exception
               (fun e => log Error (MsgInstallError (exc_str e)))
         end
       else ret tt) ;;
      ret PyNone
  end.

(** *** [_get_frontend_env] *)

Fixpoint dict_set (k v : string) (d : list (string * string)) : list (string * string) :=
  match d with
  | [] => [(k, v)]
  | (k', v') :: r => if String.eqb k k' then (k, v) :: r else (k', v') :: dict_set k v r
  end.

Definition _get_frontend_env (port : Z) : list (string * string) :=
  dict_set "SKIP_PREFLIGHT_CHECK" "true"
    (dict_set "GENERATE_SOURCEMAP" "false"
       (dict_set "PORT" (str_of_int port)
          (dict_set "BROWSER" "none" (os_environ env)))).

(** *** [_wait_for_frontend] *)

Definition stdout_log_path : string := "logs/frontend_stdout.log".
Definition stderr_log_path : string := "logs/frontend_stderr.log".

Definition url_of_port (p : Z) : string := "http://localhost:" +++ str_of_int p.

(** The log scrape of one cycle; the result is the new [detected_port]. *)
Definition scrape_log (detected_port : Z) : M Z :=
  present <- exists_ stdout_log_path ;;
  if present then
    try_except
      (log_content <- ext_exc env (EvReadFile stdout_log_path)
                        (fun t => read_file env t stdout_log_path) ;;
       match search_local env log_content with
       | Some digits =>
           new_port <- match python_int env digits with
                       | inl e => raise e
                       | inr n => ret n
                       end ;;
           if negb (new_port =? detected_port)
           then log Info (MsgPortChanged detected_port new_port) ;; ret new_port
           else ret detected_port
       | None => ret detected_port
       end)
      is_Exception
      (fun _ => ret detected_port)
  else ret detected_port.

(** The HTTP probe of one cycle: [true] is the [return True, ...] inside. *)
Definition probe_ready (start_time : Z) (url_to_check : string) : M bool :=
  try_except
    (log Info (MsgConnecting url_to_check) ;;
     status <- ext_exc env (EvHttpGet url_to_check 15)
                 (fun t => http_get env t url_to_check) ;;
     log Info (MsgResponse url_to_check status) ;;
     if status =? 200 then
       now <- time_time ;;
       log Info (MsgAccessible url_to_check (now - start_time)) ;;
       ret true
     else ret false)
    is_ClientError
    (fun e => log Warning (MsgConnectFailed url_to_check (exc_str e)) ;; ret false).

Definition poll : M (option Z) :=
  m <- get_mgr ;;
  match process (runtime m) with
  | None => raise (AttributeError "'NoneType' object has no attribute 'poll'")
  | Some _ => ext env EvPoll (proc_poll env)
  end.

Definition Ready : Type := (bool * option Z * option string)%type.

(** How one pass through the loop body ends: by a [return], or by reaching
    the end of the body with new values of the two local variables. *)
Inductive CycleEnd : Type :=
| Finished (r : Ready)
| Again (detected_port : Z) (url_to_check : string).

(** The body of the [while] loop. *)
Definition poll_cycle (start_time : Z) (detected_port : Z) : M CycleEnd :=
  returncode <- poll ;;
  match returncode with
  | Some code =>
      log Error (MsgExitedEarly code) ;;
      ret (Finished (false, None, None))
  | None =>
      detected_port' <- scrape_log detected_port ;;
      let url_to_check := url_of_port detected_port' in
      ready <- probe_ready start_time url_to_check ;;
      if ready then ret (Finished (true, Some detected_port', Some url_to_check))
      else
        sleep env 2 ;;
        ret (Again detected_port' url_to_check)
  end.

(** The [while time.time() < end_time] loop and the two statements after it.
    [url_to_check] is [None] as long as the local variable is unbound.
    [cycles] bounds the number of iterations; [None] is returned when the
    bound is hit, which never happens for the bound that
    [_wait_for_frontend] passes (lemma [wait_loop_enough]). *)
Fixpoint wait_loop (cycles : nat) (start_time end_time : Z)
    (detected_port : Z) (url_to_check : option string) : M (option Ready) :=
  now <- time_time ;;
  if now <? end_time then
    match cycles with
    | O => ret None
    | S cycles' =>
        ended <- poll_cycle start_time detected_port ;;
        match ended with
        | Finished r => ret (Some r)
        | Again detected_port' url =>
            wait_loop cycles' start_time end_time detected_port' (Some url)
        end
    end
  else
    m <- get_mgr ;;
    match url_to_check with
    | None => raise (UnboundLocalError "url_to_check")
    | Some url =>
        log Error (MsgReadyTimeout url (timeout_seconds (config m))) ;;
        ret (Some (false, None, None))
    end.

(** Each completed cycle sleeps two seconds, so this many cycles fit. *)
Definition max_cycles (timeout_ms : Z) : nat := S (Z.to_nat (timeout_ms / 2000)).

Definition _wait_for_frontend (initial_port : Z) : M Ready :=
  start_time <- time_time ;;
  m <- get_mgr ;;
  let end_time := start_time + 1000 * timeout_seconds (config m) in
  answer <- wait_loop (max_cycles (1000 * timeout_seconds (config m)))
              start_time end_time initial_port None ;;
  match answer with
  | Some ready => ret ready
  | None => ret (false, None, None)
  end.

(** *** [stop] *)

(** One [if self.<sink>: try: close() except Exception: log; self.<sink> = None]. *)
Definition close_sink (which : string) (sink : Runtime -> option Handle)
    (clear : option Handle -> Runtime -> Runtime) : M unit :=
  m <- get_mgr ;;
  match sink (runtime m) with
  | Some h =>
      try_except (ext_unit env (EvClose h) (file_close env))
        is_Exception
        (fun e => log Error (MsgCloseError which (exc_str e))) ;;
      set_runtime (clear None)
  | None => ret tt
  end.

Definition stop : M unit :=
  m <- get_mgr ;;
  match process (runtime m) with
  | Some p =>
      try_finally
        (try_except
           (log Info (MsgStopping (popen_pid p)) ;;
            ext_unit env EvTerminate (proc_terminate env) ;;
            try_except
              (ext_unit env (EvWait (Some 10)) (proc_wait env))
              is_TimeoutExpired
              (fun _ =>
                 ext_unit env EvKill (proc_kill env) ;;
                 ext_unit env (EvWait None) (proc_wait env)) ;;
            log Info MsgStopped)
           is_Exception
           (fun e => log Error (MsgStopError (exc_str e))))
        (close_sink "frontend_stdout_log_file" frontend_stdout_log_file with_stdout_log ;;
         close_sink "frontend_stderr_log_file" frontend_stderr_log_file with_stderr_log ;;
         set_runtime (with_process None) ;;
         set_runtime (with_current_url None) ;;
         set_runtime (with_pid None))
  | None => ret tt
  end.

(** *** [_start_on_port] *)

(** [open(path, "wb")] *)
Definition open_log (path : string) : M Handle :=
  t <- get_tick ;;
  ext_unit env (EvOpen path "wb") (fun t => open_file env t path) ;;
  ret {| h_path := path; h_id := t |}.

Definition dependencies_failed : string := "Échec de l'installation des dépendances npm".

Definition _start_on_port (port : Z) : M Result :=
  installed <- _ensure_dependencies ;;
  if negb (truthy installed) then ret (failure dependencies_failed)
  else
    try_except
      (m <- get_mgr ;;
       log Info (MsgExec (start_command (config m))) ;;
       let cmd :=
         if win32 env then ["cmd"; "/c"] ++ split (start_command (config m))
         else ["sh"; "-c"; start_command (config m)] in
       ext_unit env (EvMkdir "logs") (mkdir env) ;;
       out <- open_log stdout_log_path ;;
       set_runtime (with_stdout_log (Some out)) ;;
       err <- open_log stderr_log_path ;;
       set_runtime (with_stderr_log (Some err)) ;;
       child <- ext_exc env
                  (EvSpawn cmd (frontend_path (config m)) (_get_frontend_env port))
                  (popen env) ;;
       set_runtime (with_process (Some {| popen_pid := child |})) ;;
       ' (frontend_ready, final_port, final_url) <- _wait_for_frontend port ;;
       if frontend_ready then
         set_runtime (with_current_port final_port) ;;
         set_runtime (with_current_url final_url) ;;
         m1 <- get_mgr ;;
         match process (runtime m1) with
         | None => raise (AttributeError "'NoneType' object has no attribute 'pid'")
         | Some p =>
             set_runtime (with_pid (Some (popen_pid p))) ;;
             m2 <- get_mgr ;;
             log Info (MsgStarted (popen_pid p) (current_url (runtime m2))) ;;
             ret {| success := true;
                    url := current_url (runtime m2);
                    port := current_port (runtime m2);
                    result_pid := pid (runtime m2);
                    error := None |}
         end
       else
         stop ;;
         ret (failure ("Échec du démarrage du frontend sur le port " +++ str_of_int port)))
      is_Exception
      (fun e =>
         log Critical (MsgCriticalStart port (exc_str e)) ;;
         stop ;;
         ret (failure (exc_str e))).

(** *** [start_with_failover] *)

Definition disabled_result : Result :=
  {| success := true; url := None; port := None; result_pid := None;
     error := Some "Frontend désactivé" |}.

Definition path_not_found : string := "Chemin du frontend non trouvé.".

Definition exhausted_message (ports_to_try : list Z) : string :=
  "Impossible de démarrer le frontend sur les ports configurés: "
  +++ repr_int_list ports_to_try.

Section Failover.

(** The method called on each free port.  Python looks [self._start_on_port]
    up at the call; the loop is written over whatever it finds there. *)
Variable start_on_port : Z -> M Result.

(** The [for port in ports_to_try] loop; [Some result] is the [return result]
    inside the loop, [None] the end of the loop. *)
Fixpoint failover_loop (ports : list Z) : M (option Result) :=
  match ports with
  | [] => ret None
  | port :: rest =>
      log Info (MsgTry port) ;;
      occupied <- _is_port_occupied port ;;
      if occupied then
        log Warning (MsgOccupied port) ;;
        failover_loop rest
      else
        result <- start_on_port port ;;
        if success result then ret (Some result)
        else failover_loop rest
  end.

Definition start_with_failover_on : M Result :=
  m <- get_mgr ;;
  if negb (enabled (config m)) then ret disabled_result
  else
    match frontend_path (config m) with
    | None => ret (failure path_not_found)
    | Some _ =>
        let ports_to_try := [start_port (config m)] ++ fallback_ports (config m) in
        won <- failover_loop ports_to_try ;;
        match won with
        | Some result => ret result
        | None =>
            let error_msg := exhausted_message ports_to_try in
            log Error (MsgExhausted error_msg) ;;
            ret (failure error_msg)
        end
    end.

End Failover.

Definition start_with_failover : M Result := start_with_failover_on _start_on_port.

(** *** [health_check] *)

Definition health_check : M bool :=
  m <- get_mgr ;;
  match current_url (runtime m) with
  | Some current =>
      if negb (truthy_str (Some current)) then ret false
      else
        try_except
          (status <- ext_exc env (EvHttpGet current 10)
                       (fun t => http_get env t current) ;;
           if status =? 200 then log Info MsgHealthOk ;; ret true
           else ret false)
          is_Exception
          (fun e => log Error (MsgHealthFailed (exc_str e)) ;; ret false)
  | None => ret false
  end.

(** *** [get_status] *)

Definition str_of_path (p : option string) : string :=
  match p with Some s => s | None => "None" end.

Definition get_status (m : FrontendManager) : Status :=
  {| status_enabled := enabled (config m);
     status_running := match process (runtime m) with Some _ => true | None => false end;
     status_port := current_port (runtime m);
     status_url := current_url (runtime m);
     status_pid := pid (runtime m);
     status_path := str_of_path (frontend_path (config m));
     status_process := process (runtime m) |}.

(** *** The entry point, action [build] *)

(** The names bound in the class body, and those bound on the instance by
    [__init__]. *)
Definition class_methods : list string :=
  [ "__init__"; "_find_frontend_path"; "start_with_failover"; "_start_on_port";
    "_ensure_dependencies"; "_get_frontend_env"; "_wait_for_frontend";
    "_is_port_occupied"; "health_check"; "stop"; "get_status" ].

Definition instance_attributes : list string :=
  [ "config"; "logger"; "enabled"; "frontend_path"; "start_port";
    "fallback_ports"; "start_command"; "build_command"; "timeout_seconds";
    "max_attempts"; "process"; "current_port"; "current_url"; "pid";
    "frontend_stdout_log_file"; "frontend_stderr_log_file" ].

Definition hasattr (name : string) : bool :=
  existsb (String.eqb name) (instance_attributes ++ class_methods).

(** [await manager.<name>()]: attribute lookup, then the call without
    arguments. *)
Definition call_method (name : string) : M pyval :=
  if negb (hasattr name) then
    raise (AttributeError ("'FrontendManager' object has no attribute '" +++ name +++ "'"))
  else if String.eqb name "start_with_failover" then
    r <- start_with_failover ;; ret (PyResult r)
  else if String.eqb name "stop" then stop ;; ret PyNone
  else if String.eqb name "health_check" then b <- health_check ;; ret (PyBool b)
  else if String.eqb name "get_status" then m <- get_mgr ;; ret (PyStatus (get_status m))
  else if String.eqb name "_ensure_dependencies" then _ensure_dependencies
  else raise (OtherException ("'" +++ name +++ "' cannot be called without arguments")).

(** [python frontend_manager.py build]: the module's [__main__] block with
    [args.action == 'build'].  Each [sys.exit(n)] ends the run; the value
    returned is that exit status. *)
Definition main_build : M Z :=
  __init__ empty_config ;;
  m <- get_mgr ;;
  if negb (enabled (config m))
     || negb (match frontend_path (config m) with Some _ => true | None => false end)
  then log Error MsgCliUnavailable ;; ret 1
  else
    log Info MsgCliBuildStart ;;
    built <- call_method "build" ;;
    if truthy built then log Info MsgCliBuildDone ;; ret 0
    else log Error MsgCliBuildFailed ;; ret 1.

End Methods.

(** * Vocabulary of the statements *)

(** [quiet P s s'] : from [s] to [s'] the manager object is unchanged, the
    clock did not go back, and the effects performed all satisfy [P]. *)
Definition quiet (P : Event -> Prop) (s s' : St) : Prop :=
  mgr s' = mgr s /\
  clock s <= clock s' /\
  exists evs, trace s' = trace s ++ evs /\ Forall P evs.

(** A computation all of whose runs are quiet. *)
Definition keeps (P : Event -> Prop) {A} (m : M A) : Prop :=
  forall s, quiet P s (snd (m s)).

(** Effects other than spawning the start command. *)
Definition not_spawn (ev : Event) : Prop :=
  match ev with EvSpawn _ _ _ => False | _ => True end.

(** Effects that belong to the probing of ports and to the dependency step
    only: no spawn, no log file opened, no readiness poll. *)
Definition pre_launch (ev : Event) : Prop :=
  match ev with
  | EvSpawn _ _ _ | EvOpen _ _ | EvMkdir _ | EvPoll | EvHttpGet _ _
  | EvSleep _ | EvReadFile _ | EvTerminate | EvWait _ | EvKill | EvClose _ => False
  | _ => True
  end.

(** A computation that never raises. *)
Definition returns {A} (m : M A) : Prop := forall s, exists a, fst (m s) = Return a.

Section ResolutionSpec.

Variable env : Env.

(** The resolution in the words of the specification, over a file system
    [fs] that does not change while the constructor runs: a configured path
    that exists is used; otherwise the first of the three fixed candidate
    directories that holds a [package.json]. *)
Definition resolve (fs : string -> bool) (configured : option string) : option string :=
  match configured with
  | Some p =>
      if negb (String.eqb p "") && fs p then Some p
      else find (fun dir => fs (path_join dir "package.json")) (candidate_paths env)
  | None => find (fun dir => fs (path_join dir "package.json")) (candidate_paths env)
  end.

End ResolutionSpec.

Definition is_some {A} (o : option A) : bool :=
  match o with Some _ => true | None => false end.

(** All six fields set, or none of them. *)
Definition all_or_none (r : Runtime) : bool :=
  let fields :=
    [ is_some (process r); is_some (current_port r); is_some (current_url r);
      is_some (pid r); is_some (frontend_stdout_log_file r);
      is_some (frontend_stderr_log_file r) ] in
  forallb (fun b => b) fields || forallb negb fields.

(** The file objects closed by a list of effects, in order. *)
Definition closes (evs : list Event) : list Handle :=
  flat_map (fun ev => match ev with EvClose h => [h] | _ => [] end) evs.

Definition not_close (ev : Event) : Prop :=
  match ev with EvClose _ => False | _ => True end.

Definition opt_list {A} (o : option A) : list A :=
  match o with Some a => [a] | None => [] end.

(** The URLs of the HTTP requests among a list of effects, in order. *)
Definition gets (evs : list Event) : list string :=
  flat_map (fun ev => match ev with EvHttpGet u _ => [u] | _ => [] end) evs.

Definition anything (ev : Event) : Prop := True.

Section FailoverSpec.

Variable env : Env.
Variable attempt : Z -> M Result.

(** The state in which the occupancy of [port] is probed: the state at the
    head of the loop body plus the "Tentative de demarrage" log. *)
Definition trying (port : Z) (s : St) : St := snd (log Info (MsgTry port) s).

Definition warned (port : Z) (s : St) : St := snd (log Warning (MsgOccupied port) s).

(** The runs the specification allows over a list of candidates, from a
    state, with the ports probed, the ports on which the attempt was made,
    the outcome and the final state:
    - no candidate left: nothing won;
    - the first candidate is probed occupied: a warning, the attempt is not
      made, and the run goes on with the others;
    - it is probed free and the attempt succeeds: its result is the
      outcome and the final state is the one the attempt left, the other
      candidates play no part;
    - it is probed free and the attempt fails: the run goes on from the
      state the attempt left;
    - the probe or the attempt raises: the exception is the outcome. *)
Inductive FailoverRun :
  list Z -> St -> list Z -> list Z -> Outcome (option Result) -> St -> Prop :=
| run_exhausted s :
    FailoverRun [] s [] [] (Return None) s
| run_skipped port rest s s1 probed attempted o s' :
    _is_port_occupied env port (trying port s) = (Return true, s1) ->
    FailoverRun rest (warned port s1) probed attempted o s' ->
    FailoverRun (port :: rest) s (port :: probed) attempted o s'
| run_won port rest s s1 result s2 :
    _is_port_occupied env port (trying port s) = (Return false, s1) ->
    attempt port s1 = (Return result, s2) ->
    success result = true ->
    FailoverRun (port :: rest) s [port] [port] (Return (Some result)) s2
| run_failed port rest s s1 result s2 probed attempted o s' :
    _is_port_occupied env port (trying port s) = (Return false, s1) ->
    attempt port s1 = (Return result, s2) ->
    success result = false ->
    FailoverRun rest s2 probed attempted o s' ->
    FailoverRun (port :: rest) s (port :: probed) (port :: attempted) o s'
| run_probe_raised port rest s e s1 :
    _is_port_occupied env port (trying port s) = (Raise e, s1) ->
    FailoverRun (port :: rest) s [port] [] (Raise e) s1
| run_attempt_raised port rest s s1 e s2 :
    _is_port_occupied env port (trying port s) = (Return false, s1) ->
    attempt port s1 = (Raise e, s2) ->
    FailoverRun (port :: rest) s [port] [port] (Raise e) s2.

End FailoverSpec.

(** * Concrete worlds and managers *)

(** Some blanks above the ASCII range, out of [str.isspace]. *)
Definition some_unicode_blanks (c : N) : bool :=
  existsb (N.eqb c) [133; 160; 5760; 8232; 8233; 8239; 8287; 12288]%N
  || ((8192 <=? c) && (c <=? 8202))%N.

(** The Arabic-Indic and the fullwidth digits, out of category Nd. *)
Definition some_unicode_digits (c : N) : option Z :=
  if ((1632 <=? c) && (c <=? 1641))%N then Some (Z.of_N c - 1632)
  else if ((65296 <=? c) && (c <=? 65305))%N then Some (Z.of_N c - 65296)
  else None.

(** A world in which nothing goes wrong: the project lives in
    [/srv/app/frontend] without [node_modules], no port is taken, [npm
    install] succeeds, the child starts and answers 200 at once. *)
Definition friendly : Env :=
  {| cwd := "/srv/app";
     win32 := false;
     os_environ := [("PATH", "/usr/bin")];
     int_max_str_digits := 4300;
     unicode_isspace := some_unicode_blanks;
     unicode_decimal := some_unicode_digits;
     delay := fun _ => 5%N;
     path_exists := fun _ p => inr (String.eqb p "/srv/app/frontend/package.json");
     net_connections := fun _ => inr [];
     npm_popen := fun _ => None;
     npm_communicate := fun _ => CommDone 0 (inr "");
     npm_kill := fun _ => None;
     mkdir := fun _ => None;
     open_file := fun _ _ => None;
     popen := fun _ => inr 4242;
     proc_poll := fun _ => None;
     read_file := fun _ _ => inr [];
     http_get := fun _ _ => inr 200;
     proc_terminate := fun _ => None;
     proc_wait := fun _ => None;
     proc_kill := fun _ => None;
     file_close := fun _ => None |}.

Definition with_npm_communicate (f : nat -> CommOutcome) (e : Env) : Env :=
  {| cwd := cwd e;
     win32 := win32 e;
     os_environ := os_environ e;
     int_max_str_digits := int_max_str_digits e;
     unicode_isspace := unicode_isspace e;
     unicode_decimal := unicode_decimal e;
     delay := delay e;
     path_exists := path_exists e;
     net_connections := net_connections e;
     npm_popen := npm_popen e;
     npm_communicate := f;
     npm_kill := npm_kill e;
     mkdir := mkdir e;
     open_file := open_file e;
     popen := popen e;
     proc_poll := proc_poll e;
     read_file := read_file e;
     http_get := http_get e;
     proc_terminate := proc_terminate e;
     proc_wait := proc_wait e;
     proc_kill := proc_kill e;
     file_close := file_close e |}.

Definition with_path_exists (f : nat -> string -> Exc + bool) (e : Env) : Env :=
  {| cwd := cwd e;
     win32 := win32 e;
     os_environ := os_environ e;
     int_max_str_digits := int_max_str_digits e;
     unicode_isspace := unicode_isspace e;
     unicode_decimal := unicode_decimal e;
     delay := delay e;
     path_exists := f;
     net_connections := net_connections e;
     npm_popen := npm_popen e;
     npm_communicate := npm_communicate e;
     npm_kill := npm_kill e;
     mkdir := mkdir e;
     open_file := open_file e;
     popen := popen e;
     proc_poll := proc_poll e;
     read_file := read_file e;
     http_get := http_get e;
     proc_terminate := proc_terminate e;
     proc_wait := proc_wait e;
     proc_kill := proc_kill e;
     file_close := file_close e |}.

Definition with_net_connections (f : nat -> Exc + list Conn) (e : Env) : Env :=
  {| cwd := cwd e;
     win32 := win32 e;
     os_environ := os_environ e;
     int_max_str_digits := int_max_str_digits e;
     unicode_isspace := unicode_isspace e;
     unicode_decimal := unicode_decimal e;
     delay := delay e;
     path_exists := path_exists e;
     net_connections := f;
     npm_popen := npm_popen e;
     npm_communicate := npm_communicate e;
     npm_kill := npm_kill e;
     mkdir := mkdir e;
     open_file := open_file e;
     popen := popen e;
     proc_poll := proc_poll e;
     read_file := read_file e;
     http_get := http_get e;
     proc_terminate := proc_terminate e;
     proc_wait := proc_wait e;
     proc_kill := proc_kill e;
     file_close := file_close e |}.

Definition with_proc_poll (f : nat -> option Z) (e : Env) : Env :=
  {| cwd := cwd e;
     win32 := win32 e;
     os_environ := os_environ e;
     int_max_str_digits := int_max_str_digits e;
     unicode_isspace := unicode_isspace e;
     unicode_decimal := unicode_decimal e;
     delay := delay e;
     path_exists := path_exists e;
     net_connections := net_connections e;
     npm_popen := npm_popen e;
     npm_communicate := npm_communicate e;
     npm_kill := npm_kill e;
     mkdir := mkdir e;
     open_file := open_file e;
     popen := popen e;
     proc_poll := f;
     read_file := read_file e;
     http_get := http_get e;
     proc_terminate := proc_terminate e;
     proc_wait := proc_wait e;
     proc_kill := proc_kill e;
     file_close := file_close e |}.

Definition with_read_file (f : nat -> string -> Exc + text) (e : Env) : Env :=
  {| cwd := cwd e;
     win32 := win32 e;
     os_environ := os_environ e;
     int_max_str_digits := int_max_str_digits e;
     unicode_isspace := unicode_isspace e;
     unicode_decimal := unicode_decimal e;
     delay := delay e;
     path_exists := path_exists e;
     net_connections := net_connections e;
     npm_popen := npm_popen e;
     npm_communicate := npm_communicate e;
     npm_kill := npm_kill e;
     mkdir := mkdir e;
     open_file := open_file e;
     popen := popen e;
     proc_poll := proc_poll e;
     read_file := f;
     http_get := http_get e;
     proc_terminate := proc_terminate e;
     proc_wait := proc_wait e;
     proc_kill := proc_kill e;
     file_close := file_close e |}.

Definition default_config (path : option string) : Config :=
  {| enabled := true; frontend_path := path; start_port := 3000;
     fallback_ports := [3001; 3002]; start_command := "npm start";
     build_command := "npm run build"; timeout_seconds := 90; max_attempts := 5 |}.

Definition with_enabled (b : bool) (c : Config) : Config :=
  {| enabled := b; frontend_path := frontend_path c; start_port := start_port c;
     fallback_ports := fallback_ports c; start_command := start_command c;
     build_command := build_command c; timeout_seconds := timeout_seconds c;
     max_attempts := max_attempts c |}.

Definition with_timeout_seconds (t : Z) (c : Config) : Config :=
  {| enabled := enabled c; frontend_path := frontend_path c; start_port := start_port c;
     fallback_ports := fallback_ports c; start_command := start_command c;
     build_command := build_command c; timeout_seconds := t;
     max_attempts := max_attempts c |}.

(** The world at the start, around a given manager object. *)
Definition at_start (m : FrontendManager) : St :=
  {| mgr := m; tick := 0; clock := 0; trace := [] |}.

(** A manager as the constructor leaves it when the project was found. *)
Definition fresh : FrontendManager :=
  {| config := default_config (Some "/srv/app/frontend"); runtime := no_runtime |}.

(** A manager in the state the success branch of [_start_on_port] builds. *)
Definition after_start : FrontendManager :=
  {| config := default_config (Some "/srv/app/frontend");
     runtime :=
       {| process := Some {| popen_pid := 4242 |};
          current_port := Some 3000;
          current_url := Some "http://localhost:3000";
          pid := Some 4242;
          frontend_stdout_log_file := Some {| h_path := stdout_log_path; h_id := 7 |};
          frontend_stderr_log_file := Some {| h_path := stderr_log_path; h_id := 8 |} |} |}.

Definition switched_off : FrontendManager :=
  {| config := with_enabled false (default_config None); runtime := no_runtime |}.

Definition only_frontend (p : string) : bool :=
  String.eqb p "/srv/app/frontend/package.json".

Definition configured_at (p : string) : RawConfig :=
  {| raw_enabled := None; raw_path := Some p; raw_start_port := None;
     raw_fallback_ports := None; raw_start_command := None;
     raw_build_command := None; raw_timeout_seconds := None;
     raw_max_attempts := None |}.

Definition running : FrontendManager :=
  {| config := default_config (Some "/srv/app/frontend");
     runtime :=
       {| process := Some {| popen_pid := 4242 |};
          current_port := None; current_url := None; pid := None;
          frontend_stdout_log_file := Some {| h_path := stdout_log_path; h_id := 7 |};
          frontend_stderr_log_file := Some {| h_path := stderr_log_path; h_id := 8 |} |} |}.

Definition announcing_3001 : Env :=
  with_read_file
    (fun _ _ => inr (text_of_string
                       "Compiled successfully!  Local:            http://localhost:3001"))
    (with_path_exists (fun _ _ => inr true) friendly).

(** The same announcement after a no-break space and a space, before a
    slash. *)
Definition announcing_nbsp_3001 : Env :=
  with_read_file
    (fun _ _ => inr (text_of_string "Compiled successfully!  Local:" ++ [160; 32]%N
                     ++ text_of_string "http://localhost:3001/"))
    (with_path_exists (fun _ _ => inr true) friendly).

(** An announcement of 4301 digits. *)
Definition announcing_oversized : Env :=
  with_read_file
    (fun _ _ => inr (text_of_string "Local: http://localhost:" ++ repeat 57%N 4301))
    (with_path_exists (fun _ _ => inr true) friendly).

(** A world in which port 3000 is taken. *)
Definition port_3000_taken : Env :=
  with_net_connections
    (fun _ => inr [ {| laddr_port := Some 22; conn_status := "LISTEN" |};
                    {| laddr_port := Some 3000; conn_status := "ESTABLISHED" |};
                    {| laddr_port := Some 3000; conn_status := "LISTEN" |} ])
    friendly.

(** An attempt that succeeds on 3001 and nowhere else. *)
Definition up_on_3001 (port : Z) : M Result :=
  if port =? 3001 then
    ret {| success := true; url := Some "http://localhost:3001"; port := Some 3001;
           result_pid := Some 4242; error := None |}
  else ret (failure "down").

(** * Vocabulary of the further properties *)

(** [d.get(k)] on a dictionary kept as an association list. *)
Fixpoint dict_lookup (k : string) (d : list (string * string)) : option string :=
  match d with
  | [] => None
  | (k', v) :: r => if String.eqb k k' then Some v else dict_lookup k r
  end.

(** The four variables [_get_frontend_env] sets. *)
Definition overridden (k : string) : bool :=
  String.eqb k "BROWSER" || String.eqb k "PORT"
  || String.eqb k "GENERATE_SOURCEMAP" || String.eqb k "SKIP_PREFLIGHT_CHECK".

(** The test of [_is_port_occupied] on one connection that has a local
    address. *)
Definition listens_on (port : Z) (conn : Conn) : bool :=
  match laddr_port conn with
  | Some p => (p =? port) && String.eqb (conn_status conn) CONN_LISTEN
  | None => false
  end.

Definition has_laddr (conn : Conn) : bool := is_some (laddr_port conn).

(** The code point of the capital letter L. *)
Definition capital_L : N := 76.

Definition starts_with_decimal (env : Env) (s : text) : bool :=
  match s with
  | c :: _ => isdecimal env c
  | [] => false
  end.

(** An answer of the HTTP client that the readiness loop takes as "not yet
    ready" or "ready": a status, or a client error. *)
Definition absorbed (answer : Exc + Z) : bool :=
  match answer with
  | inr _ => true
  | inl e => is_ClientError e
  end.

Definition with_http_get (f : nat -> string -> Exc + Z) (e : Env) : Env :=
  {| cwd := cwd e;
     win32 := win32 e;
     os_environ := os_environ e;
     int_max_str_digits := int_max_str_digits e;
     unicode_isspace := unicode_isspace e;
     unicode_decimal := unicode_decimal e;
     delay := delay e;
     path_exists := path_exists e;
     net_connections := net_connections e;
     npm_popen := npm_popen e;
     npm_communicate := npm_communicate e;
     npm_kill := npm_kill e;
     mkdir := mkdir e;
     open_file := open_file e;
     popen := popen e;
     proc_poll := proc_poll e;
     read_file := read_file e;
     http_get := f;
     proc_terminate := proc_terminate e;
     proc_wait := proc_wait e;
     proc_kill := proc_kill e;
     file_close := file_close e |}.

Definition with_proc_wait (f : nat -> option Exc) (e : Env) : Env :=
  {| cwd := cwd e;
     win32 := win32 e;
     os_environ := os_environ e;
     int_max_str_digits := int_max_str_digits e;
     unicode_isspace := unicode_isspace e;
     unicode_decimal := unicode_decimal e;
     delay := delay e;
     path_exists := path_exists e;
     net_connections := net_connections e;
     npm_popen := npm_popen e;
     npm_communicate := npm_communicate e;
     npm_kill := npm_kill e;
     mkdir := mkdir e;
     open_file := open_file e;
     popen := popen e;
     proc_poll := proc_poll e;
     read_file := read_file e;
     http_get := http_get e;
     proc_terminate := proc_terminate e;
     proc_wait := f;
     proc_kill := proc_kill e;
     file_close := file_close e |}.

Definition with_npm_kill (f : nat -> option Exc) (e : Env) : Env :=
  {| cwd := cwd e;
     win32 := win32 e;
     os_environ := os_environ e;
     int_max_str_digits := int_max_str_digits e;
     unicode_isspace := unicode_isspace e;
     unicode_decimal := unicode_decimal e;
     delay := delay e;
     path_exists := path_exists e;
     net_connections := net_connections e;
     npm_popen := npm_popen e;
     npm_communicate := npm_communicate e;
     npm_kill := f;
     mkdir := mkdir e;
     open_file := open_file e;
     popen := popen e;
     proc_poll := proc_poll e;
     read_file := read_file e;
     http_get := http_get e;
     proc_terminate := proc_terminate e;
     proc_wait := proc_wait e;
     proc_kill := proc_kill e;
     file_close := file_close e |}.

Definition with_int_max_str_digits (f : nat) (e : Env) : Env :=
  {| cwd := cwd e;
     win32 := win32 e;
     os_environ := os_environ e;
     int_max_str_digits := f;
     unicode_isspace := unicode_isspace e;
     unicode_decimal := unicode_decimal e;
     delay := delay e;
     path_exists := path_exists e;
     net_connections := net_connections e;
     npm_popen := npm_popen e;
     npm_communicate := npm_communicate e;
     npm_kill := npm_kill e;
     mkdir := mkdir e;
     open_file := open_file e;
     popen := popen e;
     proc_poll := proc_poll e;
     read_file := read_file e;
     http_get := http_get e;
     proc_terminate := proc_terminate e;
     proc_wait := proc_wait e;
     proc_kill := proc_kill e;
     file_close := file_close e |}.

(** A world in which the three default candidates are all listened on. *)
Definition all_taken : Env :=
  with_net_connections
    (fun _ => inr [ {| laddr_port := Some 3002; conn_status := "LISTEN" |};
                    {| laddr_port := Some 3000; conn_status := "LISTEN" |};
                    {| laddr_port := Some 3001; conn_status := "LISTEN" |} ])
    friendly.

(** A world whose server answers 503 and refuses connections in turn. *)
Definition never_ready : Env :=
  with_http_get
    (fun t _ => if Nat.even t then inr 503 else inl (ClientError "refused"))
    friendly.

(** A world like [never_ready] whose log exists and cannot be read. *)
Definition unreadable_log : Env :=
  with_read_file (fun _ _ => inl (OtherException "[Errno 13] Permission denied"))
    (with_path_exists (fun _ _ => inr true) never_ready).

(** A world whose child ignores the terminate signal for ten seconds. *)
Definition stubborn_child : Env :=
  with_proc_wait (fun t => if (t =? 1)%nat then Some TimeoutExpired else None) friendly.

(** A manager that holds a process and waits six seconds at most. *)
Definition short_wait : FrontendManager :=
  {| config := with_timeout_seconds 6 (default_config (Some "/srv/app/frontend"));
     runtime := runtime running |}.

(** Effects other than an HTTP request. *)
Definition not_get (ev : Event) : Prop :=
  match ev with EvHttpGet _ _ => False | _ => True end.

(** * Reasoning about runs *)

(** ** The string functions at work *)

Example search_local_announcement :
  option_map (python_int friendly)
    (search_local friendly
       (text_of_string "Compiled successfully!  Local:            http://localhost:3001 "))
  = Some (inr 3001).
Proof. reflexivity. Qed.

(** A no-break space is a blank, Arabic-Indic digits are digits. *)
Example search_local_unicode :
  option_map (python_int friendly)
    (search_local friendly
       (text_of_string "Local:" ++ [160; 32] ++ text_of_string "http://localhost:"
        ++ [1635; 48; 48; 1633] ++ text_of_string "/"))%N
  = Some (inr 3001).
Proof. reflexivity. Qed.

Example split_npm_start : split "npm  start" = ["npm"; "start"].
Proof. reflexivity. Qed.

Example repr_ports : repr_int_list [3000; 3001; 3002] = "[3000, 3001, 3002]".
Proof. reflexivity. Qed.

(** ** Equations of the monad *)

Lemma bind_eq A B (m : M A) (k : A -> M B) s :
  bind m k s =
  match m s with
  | (Return a, s') => k a s'
  | (Raise e, s') => (Raise e, s')
  end.
Proof. reflexivity. Qed.

Lemma bind_ret A B (a : A) (k : A -> M B) s : bind (ret a) k s = k a s.
Proof. reflexivity. Qed.

Lemma bind_raise A B e (k : A -> M B) s : bind (raise e) k s = (Raise e, s).
Proof. reflexivity. Qed.

Lemma bind_get_mgr A (k : FrontendManager -> M A) s : bind get_mgr k s = k (mgr s) s.
Proof. reflexivity. Qed.

Lemma bind_time_time A (k : Z -> M A) s : bind time_time k s = k (clock s) s.
Proof. reflexivity. Qed.

Lemma bind_assoc A B C (m : M A) (k : A -> M B) (h : B -> M C) s :
  bind (bind m k) h s = bind m (fun a => bind (k a) h) s.
Proof. unfold bind. destruct (m s) as [[a | e] s1]; reflexivity. Qed.

(** Runs the monad's operations symbolically, down to the answers of the
    environment. *)
Ltac run_monad :=
  cbv beta iota delta
    [bind try_except try_except2 try_finally ext_exc ext_unit ext ext_for sleep
     exists_ log ret raise get_mgr get_tick time_time set_runtime is_Exception];
  simpl.

(** ** Steps that leave the manager alone *)

Lemma quiet_refl P s : quiet P s s.
Proof.
  repeat split; [lia|]. exists []. now rewrite app_nil_r.
Qed.

Lemma quiet_trans P a b c : quiet P a b -> quiet P b c -> quiet P a c.
Proof.
  intros (Hm1 & Hc1 & e1 & Ht1 & Hf1) (Hm2 & Hc2 & e2 & Ht2 & Hf2).
  repeat split; [congruence | lia |].
  exists (e1 ++ e2). split.
  - now rewrite Ht2, Ht1, app_assoc.
  - now apply Forall_app.
Qed.

Lemma quiet_emit P s ev t c :
  P ev -> clock s <= c ->
  quiet P s {| mgr := mgr s; tick := t; clock := c; trace := trace s ++ [ev] |}.
Proof.
  intros Hev Hc. repeat split; simpl; [exact Hc|].
  exists [ev]. split; [reflexivity | now constructor].
Qed.

Section Keeps.

Variable env : Env.
Variable P : Event -> Prop.

Lemma keeps_ret A (a : A) : keeps P (ret a).
Proof. intro s. apply quiet_refl. Qed.

Lemma keeps_raise A e : keeps P (@raise A e).
Proof. intro s. apply quiet_refl. Qed.

Lemma keeps_get_mgr : keeps P get_mgr.
Proof. intro s. apply quiet_refl. Qed.

Lemma keeps_get_tick : keeps P get_tick.
Proof. intro s. apply quiet_refl. Qed.

Lemma keeps_time_time : keeps P time_time.
Proof. intro s. apply quiet_refl. Qed.

Lemma keeps_bind A B (m : M A) (k : A -> M B) :
  keeps P m -> (forall a, keeps P (k a)) -> keeps P (bind m k).
Proof.
  intros Hm Hk s. unfold bind. specialize (Hm s).
  destruct (m s) as [[a | e] s1]; simpl in *; [|exact Hm].
  eapply quiet_trans; [exact Hm | apply Hk].
Qed.

Lemma keeps_try_except A (body : M A) c h :
  keeps P body -> (forall e, keeps P (h e)) -> keeps P (try_except body c h).
Proof.
  intros Hb Hh s. unfold try_except. specialize (Hb s).
  destruct (body s) as [[a | e] s1]; simpl in *; [exact Hb|].
  destruct (c e); [|exact Hb].
  eapply quiet_trans; [exact Hb | apply Hh].
Qed.

Lemma keeps_try_except2 A (body : M A) c1 h1 c2 h2 :
  keeps P body -> (forall e, keeps P (h1 e)) -> (forall e, keeps P (h2 e)) ->
  keeps P (try_except2 body c1 h1 c2 h2).
Proof.
  intros Hb H1 H2 s. unfold try_except2. specialize (Hb s).
  destruct (body s) as [[a | e] s1]; simpl in *; [exact Hb|].
  destruct (c1 e); [eapply quiet_trans; [exact Hb | apply H1]|].
  destruct (c2 e); [eapply quiet_trans; [exact Hb | apply H2]|exact Hb].
Qed.

Lemma keeps_log lvl m : P (EvLog lvl m) -> keeps P (log lvl m).
Proof. intros H s. apply quiet_emit; [exact H | lia]. Qed.

Lemma keeps_ext_for A extra ev (answer : nat -> A) :
  P ev -> 0 <= extra -> keeps P (ext_for env extra ev answer).
Proof. intros H Hx s. apply quiet_emit; [exact H | lia]. Qed.

Lemma keeps_ext A ev (answer : nat -> A) : P ev -> keeps P (ext env ev answer).
Proof. intro H. apply keeps_ext_for; [exact H | lia]. Qed.

Lemma keeps_ext_exc A ev (answer : nat -> Exc + A) : P ev -> keeps P (ext_exc env ev answer).
Proof.
  intro H. apply keeps_bind; [now apply keeps_ext|].
  intros [e | a]; [apply keeps_raise | apply keeps_ret].
Qed.

Lemma keeps_ext_unit ev answer : P ev -> keeps P (ext_unit env ev answer).
Proof.
  intro H. apply keeps_bind; [now apply keeps_ext|].
  intros [e |]; [apply keeps_raise | apply keeps_ret].
Qed.

Lemma keeps_sleep n : P (EvSleep n) -> 0 <= n -> keeps P (sleep env n).
Proof. intros H Hn. apply keeps_ext_for; [exact H | lia]. Qed.

End Keeps.

(** Takes a goal [keeps P m] apart along the structure of [m]; what is left
    are the conditions [P ev] on the effects of [m]. *)
Ltac keeps_step :=
  lazymatch goal with
  | |- keeps _ (bind _ _) => apply keeps_bind; [|intros ?]
  | |- keeps _ (try_except _ _ _) => apply keeps_try_except; [|intros ?]
  | |- keeps _ (try_except2 _ _ _ _ _) => apply keeps_try_except2; [|intros ?|intros ?]
  | |- keeps _ (ret _) => apply keeps_ret
  | |- keeps _ (raise _) => apply keeps_raise
  | |- keeps _ get_mgr => apply keeps_get_mgr
  | |- keeps _ get_tick => apply keeps_get_tick
  | |- keeps _ time_time => apply keeps_time_time
  | |- keeps _ (log _ _) => apply keeps_log
  | |- keeps _ (ext _ _ _) => apply keeps_ext
  | |- keeps _ (ext_exc _ _ _) => apply keeps_ext_exc
  | |- keeps _ (ext_unit _ _ _) => apply keeps_ext_unit
  | |- keeps _ (sleep _ _) => apply keeps_sleep
  | |- keeps _ (match ?x with _ => _ end) => destruct x
  end.

Ltac keeps_all := repeat keeps_step.

Lemma pre_launch_not_spawn ev : pre_launch ev -> not_spawn ev.
Proof. destruct ev; simpl; tauto. Qed.

Section MethodFacts.

Variable env : Env.

Lemma keeps_exists_ P p : P (EvPathExists p) -> keeps P (exists_ env p).
Proof. intro H. unfold exists_. now apply keeps_ext_exc. Qed.

Lemma keeps__is_port_occupied port : keeps pre_launch (_is_port_occupied env port).
Proof. unfold _is_port_occupied. keeps_all; exact I. Qed.

Lemma keeps__ensure_dependencies : keeps pre_launch (_ensure_dependencies env).
Proof.
  unfold _ensure_dependencies. keeps_all; try exact I.
  all: try (apply keeps_exists_; exact I).
Qed.

Lemma bind_ret_value A B (m : M A) (v : B) s :
  fst (bind m (fun _ => ret v) s) = Return v \/
  exists e, fst (bind m (fun _ => ret v) s) = Raise e.
Proof.
  unfold bind. destruct (m s) as [[a | e] s1]; simpl;
    [left; reflexivity | right; eexists; reflexivity].
Qed.

(** [_ensure_dependencies] never produces a true value: it ends with [None]
    or with an exception. *)
Lemma _ensure_dependencies_value s :
  fst (_ensure_dependencies env s) = Return PyNone \/
  exists e, fst (_ensure_dependencies env s) = Raise e.
Proof.
  unfold _ensure_dependencies. rewrite bind_get_mgr.
  destruct (frontend_path (config (mgr s))) as [fp|]; [|right; eexists; reflexivity].
  rewrite bind_eq.
  destruct (exists_ env (path_join fp "node_modules") s) as [[present | e] s1];
    [|right; eexists; reflexivity].
  apply bind_ret_value.
Qed.

(** Hence [_start_on_port] leaves at its first statement. *)
Lemma _start_on_port_eq port s :
  _start_on_port env port s =
  match _ensure_dependencies env s with
  | (Return _, s') => (Return (failure dependencies_failed), s')
  | (Raise e, s') => (Raise e, s')
  end.
Proof.
  unfold _start_on_port, bind at 1.
  destruct (_ensure_dependencies_value s) as [H | [e H]];
    destruct (_ensure_dependencies env s) as [[v | e'] s']; simpl in H;
    try discriminate; [|reflexivity].
  injection H as ->. reflexivity.
Qed.

Lemma keeps__start_on_port port : keeps pre_launch (_start_on_port env port).
Proof.
  intro s. rewrite _start_on_port_eq.
  pose proof (keeps__ensure_dependencies s) as H.
  destruct (_ensure_dependencies env s) as [[v | e] s']; exact H.
Qed.

Lemma keeps_failover_loop attempt ports :
  (forall p, keeps pre_launch (attempt p)) ->
  keeps pre_launch (failover_loop env attempt ports).
Proof.
  intro Ha. induction ports as [|p rest IH]; simpl.
  - apply keeps_ret.
  - keeps_all; try exact I; auto using keeps__is_port_occupied.
Qed.

Lemma keeps_start_with_failover : keeps pre_launch (start_with_failover env).
Proof.
  unfold start_with_failover, start_with_failover_on.
  keeps_all; try exact I.
  apply keeps_failover_loop, keeps__start_on_port.
Qed.

Lemma keeps_health_check : keeps (fun _ => True) (health_check env).
Proof. unfold health_check. keeps_all; exact I. Qed.

End MethodFacts.

(** ** Computations that always return *)

Lemma returns_ret A (a : A) : returns (ret a).
Proof. intro s. now exists a. Qed.

Lemma returns_bind A B (m : M A) (k : A -> M B) :
  returns m -> (forall a, returns (k a)) -> returns (bind m k).
Proof.
  intros Hm Hk s. rewrite bind_eq. destruct (Hm s) as [a Ha].
  destruct (m s) as [[a' | e] s1]; simpl in Ha; [|discriminate].
  apply Hk.
Qed.

Lemma returns_log lvl m : returns (log lvl m).
Proof. intro s. now exists tt. Qed.

Lemma returns_ext env A ev (answer : nat -> A) : returns (ext env ev answer).
Proof. intro s. now exists (answer (tick s)). Qed.

Ltac returns_step :=
  lazymatch goal with
  | |- returns (bind _ _) => apply returns_bind; [|intros ?]
  | |- returns (ret _) => apply returns_ret
  | |- returns (log _ _) => apply returns_log
  | |- returns (ext _ _ _) => apply returns_ext
  | |- returns (match ?x with _ => _ end) => destruct x
  end.

Section Resolution.

Variable env : Env.

(** An existence check that is answered. *)
Lemma exists_answer p s b :
  path_exists env (tick s) p = inr b ->
  exists_ env p s =
  (Return b,
   {| mgr := mgr s; tick := S (tick s);
      clock := clock s + 0 + Z.of_N (delay env (tick s));
      trace := trace s ++ [EvPathExists p] |}).
Proof. intro H. unfold exists_, ext_exc, bind, ext, ext_for. now rewrite H. Qed.

(** The constructor: it fails as the path resolution fails, and otherwise
    builds a manager that owns nothing. *)
Lemma init_outcome raw s :
  __init__ env raw s =
  match _find_frontend_path env (raw_path raw) s with
  | (Return p, s1) =>
      (Return tt,
       {| mgr :=
            {| config :=
                 {| enabled := dict_get (raw_enabled raw) true;
                    frontend_path := p;
                    start_port := dict_get (raw_start_port raw) 3000;
                    fallback_ports := dict_get (raw_fallback_ports raw) [3001; 3002];
                    start_command := dict_get (raw_start_command raw) "npm start";
                    build_command := dict_get (raw_build_command raw) "npm run build";
                    timeout_seconds := dict_get (raw_timeout_seconds raw) 90;
                    max_attempts := dict_get (raw_max_attempts raw) 5 |};
               runtime := no_runtime |};
          tick := tick s1; clock := clock s1; trace := trace s1 |})
  | (Raise e, s1) => (Raise e, s1)
  end.
Proof.
  unfold __init__. rewrite bind_eq.
  destruct (_find_frontend_path env (raw_path raw) s) as [[p | e] s1]; reflexivity.
Qed.

Lemma first_with_manifest_find fs l s :
  (forall t p, path_exists env t p = inr (fs p)) ->
  fst (first_with_manifest env l s) =
  Return (find (fun dir => fs (path_join dir "package.json")) l).
Proof.
  intro Hfs. revert s. induction l as [|d l IH]; intro s; simpl; [reflexivity|].
  rewrite bind_eq, (exists_answer _ _ _ (Hfs _ _)).
  destruct (fs (path_join d "package.json")); [reflexivity | apply IH].
Qed.

Lemma _find_frontend_path_resolve fs configured s :
  (forall t p, path_exists env t p = inr (fs p)) ->
  fst (_find_frontend_path env configured s) = Return (resolve env fs configured).
Proof.
  intro Hfs.
  assert (Hcand : forall l s0,
    fst (bind (first_with_manifest env l)
           (fun detected => match detected with
                            | Some path => ret (Some path)
                            | None => log Error MsgPathNotFound ;; ret None
                            end) s0)
    = Return (find (fun dir => fs (path_join dir "package.json")) l)).
  { intros l s0. rewrite bind_eq.
    pose proof (first_with_manifest_find fs l s0 Hfs) as H.
    destruct (first_with_manifest env l s0) as [[r | e] s1];
      cbn [fst] in H; [|discriminate].
    injection H as ->. destruct (find _ l); reflexivity. }
  unfold _find_frontend_path, resolve.
  destruct configured as [p|]; cbv beta iota; [|rewrite bind_ret; apply Hcand].
  destruct p as [|c p]; cbn [truthy_str String.eqb negb andb];
    [rewrite bind_ret; apply Hcand|].
  rewrite bind_assoc, bind_eq, (exists_answer _ _ _ (Hfs _ _)).
  destruct (fs (String c p)); rewrite bind_ret; [reflexivity | apply Hcand].
Qed.

End Resolution.

(** * The constructor at work *)

Example constructor_finds_project :
  mgr (snd (__init__ friendly empty_config (at_start fresh))) = fresh.
Proof. reflexivity. Qed.

(** * The dependency step *)

(** C1 (the code departs from it).  Whatever the environment answers and
    whatever the state, [_start_on_port] never reaches the spawn: its first
    statement tests the value of [_ensure_dependencies], which is always
    [None], so the method returns the failure
    "Echec de l'installation des dependances npm" (or lets an exception of
    the dependency step through); the manager object is unchanged and no
    start command is spawned. *)
Theorem start_on_port_stops_at_dependency_step :
  forall env port s,
    (fst (_start_on_port env port s) = Return (failure dependencies_failed) \/
     exists e, fst (_start_on_port env port s) = Raise e) /\
    mgr (snd (_start_on_port env port s)) = mgr s /\
    exists evs,
      trace (snd (_start_on_port env port s)) = trace s ++ evs /\
      Forall not_spawn evs.
Proof.
  intros env port s. split.
  - rewrite _start_on_port_eq.
    destruct (_ensure_dependencies env s) as [[v | e] s']; simpl;
      [left; reflexivity | right; eexists; reflexivity].
  - destruct (keeps__start_on_port env port s) as (Hm & _ & evs & Ht & Hf).
    split; [exact Hm|]. exists evs. split; [exact Ht|].
    eapply Forall_impl; [|exact Hf]. apply pre_launch_not_spawn.
Qed.

(** In the friendly world the install succeeds, and the attempt fails all
    the same without a spawn. *)
Example install_succeeds_attempt_fails :
  _start_on_port friendly 3000 (at_start fresh) =
  (Return (failure dependencies_failed),
   {| mgr := fresh; tick := 3; clock := 15;
      trace := [ EvPathExists "/srv/app/frontend/node_modules";
                 EvLog Info MsgInstalling;
                 EvNpmInstall (Some "/srv/app/frontend");
                 EvNpmCommunicate 120;
                 EvLog Info MsgInstalled ] |}).
Proof. reflexivity. Qed.

(** The install runs into the 120 s timeout: killed, logged, and the
    attempt fails at the dependency step. *)
Example install_times_out_attempt_fails :
  _start_on_port (with_npm_communicate (fun _ => CommTimeout) friendly) 3000 (at_start fresh) =
  (Return (failure dependencies_failed),
   {| mgr := fresh; tick := 4; clock := 20;
      trace := [ EvPathExists "/srv/app/frontend/node_modules";
                 EvLog Info MsgInstalling;
                 EvNpmInstall (Some "/srv/app/frontend");
                 EvNpmCommunicate 120;
                 EvNpmKill;
                 EvLog Error MsgInstallTimeout ] |}).
Proof. reflexivity. Qed.

(** With [node_modules] in place nothing is installed; same outcome. *)
Example nothing_to_install_attempt_fails :
  _start_on_port (with_path_exists (fun _ _ => inr true) friendly) 3000 (at_start fresh) =
  (Return (failure dependencies_failed),
   {| mgr := fresh; tick := 1; clock := 5;
      trace := [ EvPathExists "/srv/app/frontend/node_modules" ] |}).
Proof. reflexivity. Qed.

(** * Disabled manager, path resolution *)

(** C10.  With the [enabled] flag false, [start_with_failover] returns
    [{'success': True, 'error': 'Frontend desactive'}] and the state after it
    is the state before it: the path is not looked at, no port is probed,
    nothing is installed or spawned, and the runtime fields are untouched. *)
Theorem disabled_returns_at_once :
  forall env s,
    enabled (config (mgr s)) = false ->
    start_with_failover env s =
    (Return {| success := true; url := None; port := None; result_pid := None;
               error := Some "Frontend désactivé" |},
     s).
Proof.
  intros env s H. unfold start_with_failover, start_with_failover_on.
  rewrite bind_get_mgr, H. reflexivity.
Qed.

Lemma disabled_returns_at_once_witness :
  start_with_failover friendly (at_start switched_off) =
  (Return {| success := true; url := None; port := None; result_pid := None;
             error := Some "Frontend désactivé" |},
   at_start switched_off).
Proof.
  apply (disabled_returns_at_once friendly (at_start switched_off)). reflexivity.
Defined.

Lemma start_with_failover_without_path env s :
  enabled (config (mgr s)) = true ->
  frontend_path (config (mgr s)) = None ->
  start_with_failover env s = (Return (failure path_not_found), s).
Proof.
  intros He Hp. unfold start_with_failover, start_with_failover_on.
  rewrite bind_get_mgr, He, Hp. reflexivity.
Qed.

(** C9.  Over a file system [fs] that holds still while the constructor
    runs and answers every existence check: a configured, non-empty path that exists becomes the frontend
    path; otherwise the frontend path is the first directory, in the order
    [interface_web], [frontend],
    [services/web_api/interface-web-argumentative] under the working
    directory, that holds a [package.json]; and when none is found an
    enabled manager's [start_with_failover] returns the failure
    "Chemin du frontend non trouve." in the very state it was called in (no
    port probed, nothing installed, nothing spawned). *)
Theorem path_resolution_ordered_and_fatal :
  forall env fs raw s,
    (forall t p, path_exists env t p = inr (fs p)) ->
    let s1 := snd (__init__ env raw s) in
    (forall p, raw_path raw = Some p -> p <> "" -> fs p = true ->
       frontend_path (config (mgr s1)) = Some p) /\
    ((forall p, raw_path raw = Some p -> p = "" \/ fs p = false) ->
       frontend_path (config (mgr s1)) =
       find (fun dir => fs (path_join dir "package.json"))
         [ path_join (cwd env) "interface_web";
           path_join (cwd env) "frontend";
           path_join (cwd env) "services/web_api/interface-web-argumentative" ]) /\
    (frontend_path (config (mgr s1)) = None ->
     enabled (config (mgr s1)) = true ->
     start_with_failover env s1 = (Return (failure path_not_found), s1)).
Proof.
  intros env fs raw s Hfs s1.
  assert (Hpath : frontend_path (config (mgr s1)) = resolve env fs (raw_path raw)).
  { subst s1. rewrite init_outcome.
    pose proof (_find_frontend_path_resolve env fs (raw_path raw) s Hfs) as H.
    destruct (_find_frontend_path env (raw_path raw) s) as [[p | e] s0];
      cbn [fst] in H; [|discriminate].
    now injection H as ->. }
  repeat split.
  - intros p Hp Hne Hex. rewrite Hpath, Hp. unfold resolve.
    destruct (String.eqb_spec p ""); [contradiction|]. now rewrite Hex.
  - intro Hno. rewrite Hpath. unfold resolve.
    destruct (raw_path raw) as [p|]; [|reflexivity].
    destruct (Hno p eq_refl) as [-> | Hex]; [reflexivity|].
    rewrite Hex, andb_false_r. reflexivity.
  - intros Hnone Hen. now apply start_with_failover_without_path.
Qed.

Lemma path_resolution_ordered_and_fatal_witness :
  frontend_path
    (config (mgr (snd (__init__ (with_path_exists (fun _ _ => inr true) friendly)
                         (configured_at "/opt/ui") (at_start fresh)))))
  = Some "/opt/ui" /\
  frontend_path (config (mgr (snd (__init__ friendly empty_config (at_start fresh)))))
  = Some "/srv/app/frontend" /\
  start_with_failover (with_path_exists (fun _ _ => inr false) friendly)
    (snd (__init__ (with_path_exists (fun _ _ => inr false) friendly) empty_config
            (at_start fresh)))
  = (Return (failure path_not_found),
     snd (__init__ (with_path_exists (fun _ _ => inr false) friendly) empty_config
            (at_start fresh))).
Proof.
  split; [|split].
  - apply (path_resolution_ordered_and_fatal
             (with_path_exists (fun _ _ => inr true) friendly) (fun _ => true)
             (configured_at "/opt/ui") (at_start fresh)); [reflexivity | reflexivity | discriminate | reflexivity].
  - destruct (path_resolution_ordered_and_fatal friendly only_frontend
                empty_config (at_start fresh)) as (_ & H & _); [reflexivity|].
    rewrite H; [reflexivity | discriminate].
  - apply (path_resolution_ordered_and_fatal
             (with_path_exists (fun _ _ => inr false) friendly) (fun _ => false)
             empty_config (at_start fresh)); reflexivity.
Defined.

(** * Stopping without a process *)

Lemma stop_without_process env s :
  process (runtime (mgr s)) = None -> stop env s = (Return tt, s).
Proof. intro H. unfold stop. rewrite bind_get_mgr, H. reflexivity. Qed.

(** * Stopping *)

Lemma closes_app a b : closes (a ++ b) = closes a ++ closes b.
Proof. apply flat_map_app. Qed.

Lemma closes_not_close evs : Forall not_close evs -> closes evs = [].
Proof.
  induction 1 as [|ev evs Hev _ IH]; [reflexivity|].
  unfold closes in *. simpl. rewrite IH. destruct ev; simpl in *; tauto.
Qed.

Lemma try_finally_eq A (body : M A) fin s :
  try_finally body fin s =
  match body s with
  | (o, s') =>
      match fin s' with
      | (Return _, s'') => (o, s'')
      | (Raise e, s'') => (Raise e, s'')
      end
  end.
Proof. reflexivity. Qed.

Lemma returns_try_except_all A (body : M A) h :
  (forall e, returns (h e)) -> returns (try_except body is_Exception h).
Proof.
  intros Hh s. unfold try_except.
  destruct (body s) as [[a | e] s1]; simpl; [now exists a | apply Hh].
Qed.

Section Stopping.

Variable env : Env.

(** What [stop] does to a manager that holds a process: it returns, the
    configuration is kept, every runtime field but [current_port] is set to
    [None], [current_port] is kept, and the file objects closed are the
    sinks that were set, standard output first, each once. *)
Lemma stop_with_process s p :
  process (runtime (mgr s)) = Some p ->
  exists s',
    stop env s = (Return tt, s') /\
    config (mgr s') = config (mgr s) /\
    runtime (mgr s') =
      {| process := None;
         current_port := current_port (runtime (mgr s));
         current_url := None; pid := None;
         frontend_stdout_log_file := None;
         frontend_stderr_log_file := None |} /\
    exists evs,
      trace s' = trace s ++ evs /\
      closes evs =
        opt_list (frontend_stdout_log_file (runtime (mgr s))) ++
        opt_list (frontend_stderr_log_file (runtime (mgr s))).
Proof.
  intro Hp. unfold stop. rewrite bind_get_mgr, Hp, try_finally_eq.
  match goal with
  | |- context [try_except ?b ?c ?h s] =>
      assert (Hk : keeps not_close (try_except b c h)) by (keeps_all; exact I);
      assert (Hr : returns (try_except b c h))
        by (apply returns_try_except_all; intro; apply returns_log);
      specialize (Hk s); specialize (Hr s);
      destruct (try_except b c h s) as [o s1]
  end.
  destruct Hr as [[] Hr]; simpl in Hr; subst o.
  destruct Hk as (Hm & _ & evs1 & Ht1 & Hf1); simpl in Hm, Ht1.
  apply closes_not_close in Hf1.
  destruct s1 as [m1 t1 c1 tr1]; simpl in Hm, Ht1; subst m1 tr1.
  destruct (mgr s) as [cfg [pr cp cu pd out err]]; simpl in *.
  cbv beta iota delta [close_sink bind get_mgr try_except ext_unit ext ext_for
    set_runtime log ret raise is_Exception]; simpl.
  destruct out as [ho|], err as [he|]; simpl;
    repeat match goal with
      | |- context [file_close env ?t] => destruct (file_close env t); simpl
      end;
    eexists; (split; [reflexivity|]); simpl;
    (split; [reflexivity|]); (split; [reflexivity|]);
    eexists; (split; [rewrite <- ?app_assoc; reflexivity|]);
    rewrite ?closes_app, Hf1; reflexivity.
Qed.

(** [stop] twice is [stop] once: the second call finds no process. *)
Lemma stop_idempotent s :
  stop env (snd (stop env s)) = (Return tt, snd (stop env s)).
Proof.
  destruct (process (runtime (mgr s))) as [p|] eqn:Hp.
  - destruct (stop_with_process s p Hp) as (s' & Hs & _ & Hr & _).
    rewrite Hs. simpl. apply stop_without_process. now rewrite Hr.
  - rewrite (stop_without_process env s Hp). simpl.
    now apply stop_without_process.
Qed.

End Stopping.

(** C2 (the code departs from it).  In every environment and every state,
    [stop] leaves [current_port] as it found it: the [finally] block assigns
    [None] to the process, the URL, the pid and the two log files, and has
    no assignment to [current_port]. *)
Theorem stop_keeps_current_port :
  forall env s,
    current_port (runtime (mgr (snd (stop env s)))) = current_port (runtime (mgr s)).
Proof.
  intros env s. destruct (process (runtime (mgr s))) as [p|] eqn:Hp.
  - destruct (stop_with_process env s p Hp) as (s' & Hs & _ & Hr & _).
    rewrite Hs. simpl. now rewrite Hr.
  - now rewrite (stop_without_process env s Hp).
Qed.

(** C3 (the code departs from it).  Take any manager in the state the
    success branch of [_start_on_port] builds, all six runtime fields set,
    and call [stop], in any environment: afterwards the fields are neither
    all set nor all unset, since [current_port] is the one field the
    [finally] block does not clear, and [get_status] shows a port with
    [running = False], no URL, no pid and no process. *)
Theorem stop_exposes_a_port_without_process :
  forall env cfg p cp cu pd out err t c tr,
    let started :=
      {| process := Some p; current_port := Some cp; current_url := Some cu;
         pid := Some pd; frontend_stdout_log_file := Some out;
         frontend_stderr_log_file := Some err |} in
    let s := {| mgr := {| config := cfg; runtime := started |};
                tick := t; clock := c; trace := tr |} in
    all_or_none started = true /\
    all_or_none (runtime (mgr (snd (stop env s)))) = false /\
    get_status (mgr (snd (stop env s))) =
    {| status_enabled := enabled cfg; status_running := false;
       status_port := Some cp; status_url := None; status_pid := None;
       status_path := str_of_path (frontend_path cfg); status_process := None |}.
Proof.
  intros env cfg p cp cu pd out err t c tr started s.
  destruct (stop_with_process env s p eq_refl) as (s' & Hs & Hcfg & Hr & _).
  rewrite Hs. cbn [snd]. unfold get_status. rewrite Hr, Hcfg.
  repeat split.
Qed.

(** After a start that succeeded on port 3000, [stop] closes both sinks
    once and leaves a manager that has a port and nothing else. *)
Example stop_after_start :
  stop friendly (at_start after_start) =
  (Return tt,
   {| mgr :=
        {| config := default_config (Some "/srv/app/frontend");
           runtime := with_current_port (Some 3000) no_runtime |};
      tick := 4; clock := 20;
      trace := [ EvLog Info (MsgStopping 4242); EvTerminate; EvWait (Some 10);
                 EvLog Info MsgStopped;
                 EvClose {| h_path := stdout_log_path; h_id := 7 |};
                 EvClose {| h_path := stderr_log_path; h_id := 8 |} ] |}).
Proof. reflexivity. Qed.

Example stop_after_start_partial :
  all_or_none (runtime (mgr (snd (stop friendly (at_start after_start))))) = false /\
  get_status (mgr (snd (stop friendly (at_start after_start)))) =
  {| status_enabled := true; status_running := false; status_port := Some 3000;
     status_url := None; status_pid := None; status_path := "/srv/app/frontend";
     status_process := None |}.
Proof. split; reflexivity. Qed.

(** A launch that failed between opening the logs and [Popen] leaves the
    sinks set and no process; [stop] then does nothing at all. *)
Example stop_with_sinks_only :
  let m := {| config := default_config (Some "/srv/app/frontend");
              runtime :=
                with_stdout_log (Some {| h_path := stdout_log_path; h_id := 7 |})
                  no_runtime |} in
  stop friendly (at_start m) = (Return tt, at_start m).
Proof. reflexivity. Qed.

(** * Waiting for readiness *)

Section Waiting.

Variable env : Env.

Lemma keeps_poll_cycle start detected : keeps anything (poll_cycle env start detected).
Proof.
  unfold poll_cycle, poll, scrape_log, probe_ready.
  keeps_all; try exact I; try lia.
  apply keeps_exists_; exact I.
Qed.

(** A cycle that reaches the end of the loop body has slept two seconds. *)
Lemma poll_cycle_again start detected s d u :
  fst (poll_cycle env start detected s) = Return (Again d u) ->
  clock s + 2000 <= clock (snd (poll_cycle env start detected s)).
Proof.
  unfold poll_cycle. rewrite bind_eq.
  assert (Hp : keeps anything (poll env)) by (unfold poll; keeps_all; exact I).
  specialize (Hp s). destruct (poll env s) as [[[code|] | e] s1]; simpl in Hp;
    [rewrite bind_eq; simpl; discriminate | | simpl; discriminate].
  destruct Hp as (_ & Hc1 & _).
  rewrite bind_eq.
  assert (Hs : keeps anything (scrape_log env detected)).
  { unfold scrape_log. keeps_all; try exact I. apply keeps_exists_; exact I. }
  specialize (Hs s1). destruct (scrape_log env detected s1) as [[d' | e] s2];
    simpl in Hs; [|simpl; discriminate].
  destruct Hs as (_ & Hc2 & _).
  cbv zeta. rewrite bind_eq.
  assert (Hr : keeps anything (probe_ready env start (url_of_port d'))).
  { unfold probe_ready. keeps_all; exact I. }
  specialize (Hr s2).
  destruct (probe_ready env start (url_of_port d') s2) as [[[|] | e] s3];
    simpl in Hr; [simpl; discriminate | | simpl; discriminate].
  destruct Hr as (_ & Hc3 & _).
  intros _. simpl. lia.
Qed.

(** The bound on the number of cycles is never the reason to leave the
    loop: if what is left of the time budget fits in [cycles] sleeps, the
    loop ends by one of its own exits. *)
Lemma wait_loop_enough cycles start_time end_time detected url s :
  end_time - clock s <= 2000 * Z.of_nat cycles ->
  fst (wait_loop env cycles start_time end_time detected url s) <> Return None.
Proof.
  revert detected url s.
  induction cycles as [|n IH]; intros detected url s Hfit;
    cbn [wait_loop]; rewrite bind_time_time;
    destruct (Z.ltb_spec (clock s) end_time) as [Hlt | Hge].
  - simpl in Hfit. lia.
  - rewrite bind_get_mgr. destruct url; simpl; discriminate.
  - rewrite bind_eq.
    pose proof (poll_cycle_again start_time detected s) as Hslept.
    destruct (poll_cycle env start_time detected s) as [[[r | d u] | e] s1];
      simpl; try discriminate.
    apply IH. specialize (Hslept d u eq_refl). simpl in Hslept. lia.
  - rewrite bind_get_mgr. destruct url; simpl; discriminate.
Qed.

Lemma max_cycles_fit timeout_ms : timeout_ms <= 2000 * Z.of_nat (max_cycles timeout_ms).
Proof.
  unfold max_cycles. rewrite Nat2Z.inj_succ.
  destruct (Z.le_gt_cases 0 timeout_ms) as [Hpos | Hneg].
  - rewrite Z2Nat.id by (apply Z.div_pos; lia).
    pose proof (Z.mul_succ_div_gt timeout_ms 2000 ltac:(lia)). lia.
  - lia.
Qed.

(** [_wait_for_frontend] ends by an exit of the Python loop: what it
    returns is what [wait_loop] returned. *)
Lemma _wait_for_frontend_eq port s :
  exists r,
    wait_loop env (max_cycles (1000 * timeout_seconds (config (mgr s))))
      (clock s) (clock s + 1000 * timeout_seconds (config (mgr s))) port None s = r /\
    fst r <> Return None /\
    _wait_for_frontend env port s =
    match r with
    | (Return (Some ready), s') => (Return ready, s')
    | (Return None, s') => (Return (false, None, None), s')
    | (Raise e, s') => (Raise e, s')
    end.
Proof.
  eexists. split; [reflexivity|]. split.
  - apply wait_loop_enough. pose proof (max_cycles_fit (1000 * timeout_seconds (config (mgr s)))). lia.
  - unfold _wait_for_frontend. rewrite bind_time_time, bind_get_mgr, bind_eq.
    destruct (wait_loop _ _ _ _ _ _ _) as [[[r|] | e] s1]; reflexivity.
Qed.

(** The probe: 200 is the one answer that gives [true]; any other status
    and any [ClientError] give [false]; another exception goes through. *)
Lemma probe_ready_outcome start url s :
  fst (probe_ready env start url s) =
  match http_get env (tick s) url with
  | inr status => Return (status =? 200)
  | inl e => if is_ClientError e then Return false else Raise e
  end.
Proof.
  unfold probe_ready. run_monad.
  destruct (http_get env (tick s) url) as [e | status]; simpl.
  - destruct (is_ClientError e); reflexivity.
  - destruct (status =? 200); reflexivity.
Qed.

(** The deadline, once a cycle has run: logged, [(False, None, None)]. *)
Lemma wait_loop_deadline cycles start_time end_time detected url s :
  end_time <= clock s ->
  wait_loop env cycles start_time end_time detected (Some url) s =
  (Return (Some (false, None, None)),
   {| mgr := mgr s; tick := tick s; clock := clock s;
      trace := trace s ++ [EvLog Error (MsgReadyTimeout url (timeout_seconds (config (mgr s))))] |}).
Proof.
  intro H. destruct cycles; cbn [wait_loop]; rewrite bind_time_time;
    destruct (Z.ltb_spec (clock s) end_time); try lia; reflexivity.
Qed.

End Waiting.

(** C6.  When a cycle of the readiness loop begins (the deadline is not
    reached) and the child's [poll()] gives a return code, the wait ends in
    that cycle with [(False, None, None)]: the only effects are the poll and
    the error log, no log read, no HTTP request, no sleep.  In particular a
    child that has exited by the first poll makes [_wait_for_frontend] fail
    in its first cycle, whatever the timeout (if positive). *)
Theorem exited_child_fails_in_the_same_cycle :
  forall env s p code,
    process (runtime (mgr s)) = Some p ->
    proc_poll env (tick s) = Some code ->
    let s' := {| mgr := mgr s; tick := S (tick s);
                 clock := clock s + Z.of_N (delay env (tick s));
                 trace := trace s ++ [EvPoll; EvLog Error (MsgExitedEarly code)] |} in
    (forall cycles start_time end_time detected url,
        clock s < end_time ->
        wait_loop env (S cycles) start_time end_time detected url s =
        (Return (Some (false, None, None)), s')) /\
    (forall initial_port,
        0 < timeout_seconds (config (mgr s)) ->
        _wait_for_frontend env initial_port s = (Return (false, None, None), s')).
Proof.
  intros env s p code Hp Hpoll s'.
  assert (Hcycle : forall cycles start_time end_time detected url,
             clock s < end_time ->
             wait_loop env (S cycles) start_time end_time detected url s =
             (Return (Some (false, None, None)), s')).
  { intros cycles start_time end_time detected url Hlt.
    cbn [wait_loop]. rewrite bind_time_time.
    destruct (Z.ltb_spec (clock s) end_time); [|lia].
    unfold poll_cycle, poll. rewrite bind_assoc, bind_assoc, bind_get_mgr, Hp.
    run_monad. rewrite Hpoll. subst s'. cbn [mgr tick clock trace].
    rewrite <- app_assoc, Z.add_0_r. reflexivity. }
  split; [exact Hcycle|].
  intros initial_port Hpos. unfold _wait_for_frontend.
  rewrite bind_time_time, bind_get_mgr, bind_eq. unfold max_cycles.
  rewrite Hcycle by lia. reflexivity.
Qed.

Lemma exited_child_fails_in_the_same_cycle_witness :
  _wait_for_frontend (with_proc_poll (fun _ => Some 1) friendly) 3000 (at_start running) =
  (Return (false, None, None),
   {| mgr := running; tick := 1; clock := 5;
      trace := [EvPoll; EvLog Error (MsgExitedEarly 1)] |}).
Proof.
  apply (exited_child_fails_in_the_same_cycle
           (with_proc_poll (fun _ => Some 1) friendly) (at_start running)
           {| popen_pid := 4242 |} 1); [reflexivity | reflexivity | simpl; lia].
Defined.

(** A cycle that finds the child alive, reads the log, finds an announcement
    that [int] accepts and whose value is not the tracked port: what is left
    of the cycle is the probe of the announced URL. *)
Lemma poll_cycle_switch env start_time detected s p content digits announced :
  process (runtime (mgr s)) = Some p ->
  proc_poll env (tick s) = None ->
  path_exists env (S (tick s)) stdout_log_path = inr true ->
  read_file env (S (S (tick s))) stdout_log_path = inr content ->
  search_local env content = Some digits ->
  python_int env digits = inr announced ->
  announced <> detected ->
  poll_cycle env start_time detected s =
  bind (probe_ready env start_time (url_of_port announced))
    (fun ready =>
       if ready then ret (Finished (true, Some announced, Some (url_of_port announced)))
       else sleep env 2 ;; ret (Again announced (url_of_port announced)))
    {| mgr := mgr s; tick := S (S (S (tick s)));
       clock := clock s + Z.of_N (delay env (tick s))
                + Z.of_N (delay env (S (tick s)))
                + Z.of_N (delay env (S (S (tick s))));
       trace := trace s ++ [EvPoll; EvPathExists stdout_log_path;
                            EvReadFile stdout_log_path;
                            EvLog Info (MsgPortChanged detected announced)] |}.
Proof.
  intros Hp Hpoll Hex Hread Hsearch Hint Hneq.
  assert (Hne : (announced =? detected) = false) by (apply Z.eqb_neq; exact Hneq).
  unfold poll_cycle, poll.
  rewrite bind_assoc, bind_get_mgr, Hp.
  rewrite bind_eq. unfold ext at 1, ext_for at 1. rewrite Hpoll. cbv iota beta.
  rewrite bind_eq. unfold scrape_log at 1.
  rewrite bind_eq. unfold exists_ at 1, ext_exc at 1.
  rewrite bind_eq. unfold ext at 1, ext_for at 1. cbn [tick].
  rewrite Hex. cbv iota beta. unfold ret at 1. cbv iota beta.
  unfold try_except at 1. rewrite bind_eq.
  unfold ext_exc at 1. rewrite bind_eq. unfold ext at 1, ext_for at 1. cbn [tick].
  rewrite Hread. cbv iota beta. unfold ret at 1. cbv iota beta.
  rewrite Hsearch, Hint. cbv iota beta. rewrite bind_ret, Hne. cbn [negb].
  unfold bind at 1, log at 1, ret at 1. cbv iota beta. cbn [mgr tick clock trace].
  rewrite <- !app_assoc, !Z.add_0_r. reflexivity.
Qed.

(** C5.  In a cycle of the readiness loop that finds the child alive and
    reads a standard-output log whose first [Local: http://localhost:<n>]
    announcement (the match of [re.search]) writes, in digits that [int]
    converts, a port [n] other than the tracked one: the HTTP request of
    that cycle, its only one, goes to [http://localhost:<n>]; the cycle ends
    either with success reporting port [n] and that URL, or with [n] and
    that URL as the tracked values of the next cycle (or with an exception
    that is not a client error); when the answer is 200 the loop returns
    [(True, n, "http://localhost:<n>")]; and so does [_wait_for_frontend]
    called with the tracked port and a positive timeout when this is its
    first cycle. *)
Theorem announced_port_is_probed_and_reported :
  forall env start_time detected s p content digits announced,
    process (runtime (mgr s)) = Some p ->
    proc_poll env (tick s) = None ->
    path_exists env (S (tick s)) stdout_log_path = inr true ->
    read_file env (S (S (tick s))) stdout_log_path = inr content ->
    search_local env content = Some digits ->
    python_int env digits = inr announced ->
    announced <> detected ->
    let announced_url := "http://localhost:" +++ str_of_int announced in
    let cycle := poll_cycle env start_time detected s in
    (exists evs, trace (snd cycle) = trace s ++ evs /\ gets evs = [announced_url]) /\
    (fst cycle = Return (Finished (true, Some announced, Some announced_url)) \/
     fst cycle = Return (Again announced announced_url) \/
     exists e, fst cycle = Raise e /\ is_ClientError e = false) /\
    (http_get env (S (S (S (tick s)))) announced_url = inr 200 ->
     forall cycles end_time url,
       clock s < end_time ->
       fst (wait_loop env (S cycles) start_time end_time detected url s) =
       Return (Some (true, Some announced, Some announced_url))) /\
    (http_get env (S (S (S (tick s)))) announced_url = inr 200 ->
     0 < timeout_seconds (config (mgr s)) ->
     fst (_wait_for_frontend env detected s) =
     Return (true, Some announced, Some announced_url)).
Proof.
  intros env start_time detected s p content digits announced
    Hp Hpoll Hex Hread Hsearch Hint Hneq announced_url cycle.
  assert (Hcycle := fun start =>
    poll_cycle_switch env start detected s p content digits announced
      Hp Hpoll Hex Hread Hsearch Hint Hneq).
  change (url_of_port announced) with announced_url in Hcycle.
  assert (Hout := fun start =>
    probe_ready_outcome env start announced_url
                {| mgr := mgr s; tick := S (S (S (tick s)));
                   clock := clock s + Z.of_N (delay env (tick s))
                            + Z.of_N (delay env (S (tick s)))
                            + Z.of_N (delay env (S (S (tick s))));
                   trace := trace s ++ [EvPoll; EvPathExists stdout_log_path;
                                        EvReadFile stdout_log_path;
                                        EvLog Info (MsgPortChanged detected announced)] |}).
  cbn [tick] in Hout.
  assert (Hloop : http_get env (S (S (S (tick s)))) announced_url = inr 200 ->
     forall start cycles end_time url,
       clock s < end_time ->
       fst (wait_loop env (S cycles) start end_time detected url s) =
       Return (Some (true, Some announced, Some announced_url))).
  { intros H200 start cycles end_time url Hlt.
    cbn [wait_loop]. rewrite bind_time_time.
    destruct (Z.ltb_spec (clock s) end_time); [|lia].
    rewrite bind_eq, (Hcycle start), bind_eq.
    specialize (Hout start). rewrite H200 in Hout.
    destruct (probe_ready env start announced_url _) as [[[|] | e] s3];
      simpl in Hout; try discriminate. reflexivity. }
  split; [|split; [|split]].
  - subst cycle. rewrite Hcycle. unfold probe_ready. run_monad.
    destruct (http_get env (S (S (S (tick s)))) announced_url) as [e | status]; simpl.
    + destruct (is_ClientError e); simpl; eexists;
        (split; [rewrite <- ?app_assoc; reflexivity | reflexivity]).
    + destruct (status =? 200); simpl; eexists;
        (split; [rewrite <- ?app_assoc; reflexivity | reflexivity]).
  - subst cycle. rewrite Hcycle, bind_eq. specialize (Hout start_time).
    destruct (probe_ready env start_time announced_url _) as [[[|] | e] s3];
      simpl in Hout |- *.
    + left; reflexivity.
    + right; left; reflexivity.
    + right; right. exists e. split; [reflexivity|].
      destruct (http_get env (S (S (S (tick s)))) announced_url) as [e' | status];
        [|discriminate].
      destruct (is_ClientError e') eqn:He'; [discriminate|]. congruence.
  - intros H200 cycles end_time url Hlt. now apply Hloop.
  - intros H200 Hpos. unfold _wait_for_frontend.
    rewrite bind_time_time, bind_get_mgr, bind_eq. unfold max_cycles.
    specialize (Hloop H200 (clock s) (Z.to_nat (1000 * timeout_seconds (config (mgr s)) / 2000))
                  (clock s + 1000 * timeout_seconds (config (mgr s))) None ltac:(lia)).
    destruct (wait_loop env _ _ _ _ _ s) as [[[r|] | e] s1]; simpl in Hloop;
      try discriminate.
    injection Hloop as ->. reflexivity.
Qed.

Lemma announced_port_is_probed_and_reported_witness :
  fst (_wait_for_frontend announcing_3001 3000 (at_start running)) =
  Return (true, Some 3001, Some "http://localhost:3001").
Proof.
  pose proof (announced_port_is_probed_and_reported announcing_3001 0 3000
                (at_start running) {| popen_pid := 4242 |}
                (text_of_string
                   "Compiled successfully!  Local:            http://localhost:3001")
                (text_of_string "3001") 3001
                eq_refl eq_refl eq_refl eq_refl eq_refl eq_refl
                ltac:(discriminate)) as (_ & _ & _ & H).
  apply H; [reflexivity | simpl; lia].
Defined.

(** What the loop can return at all. *)
Lemma poll_cycle_finished env start detected s r :
  fst (poll_cycle env start detected s) = Return (Finished r) ->
  r = (false, None, None) \/ exists p, r = (true, Some p, Some (url_of_port p)).
Proof.
  unfold poll_cycle. rewrite bind_eq.
  destruct (poll env s) as [[[code|] | e] s1]; [| |discriminate].
  - rewrite bind_eq. simpl. intro H. injection H as <-. now left.
  - rewrite bind_eq. destruct (scrape_log env detected s1) as [[d | e] s2]; [|discriminate].
    cbv zeta. rewrite bind_eq.
    destruct (probe_ready env start (url_of_port d) s2) as [[[|] | e] s3];
      [| |discriminate].
    + simpl. intro H. injection H as <-. right. now exists d.
    + rewrite bind_eq. simpl. discriminate.
Qed.

Lemma wait_loop_result env cycles start_time end_time detected url s r :
  fst (wait_loop env cycles start_time end_time detected url s) = Return (Some r) ->
  r = (false, None, None) \/ exists p, r = (true, Some p, Some (url_of_port p)).
Proof.
  revert detected url s.
  induction cycles as [|n IH]; intros detected url s;
    cbn [wait_loop]; rewrite bind_time_time; destruct (clock s <? end_time).
  - discriminate.
  - rewrite bind_get_mgr. destruct url; simpl; [|discriminate].
    intro H. injection H as <-. now left.
  - rewrite bind_eq.
    pose proof (poll_cycle_finished env start_time detected s) as Hfin.
    destruct (poll_cycle env start_time detected s) as [[[r' | d u] | e] s1];
      [| |discriminate].
    + simpl. intro H. injection H as <-. now apply Hfin.
    + apply IH.
  - rewrite bind_get_mgr. destruct url; simpl; [|discriminate].
    intro H. injection H as <-. now left.
Qed.

(** With a timeout that leaves no room for a first cycle, the statement
    after the loop reads a local variable that was never bound. *)
Lemma _wait_for_frontend_no_cycle env initial_port s :
  timeout_seconds (config (mgr s)) <= 0 ->
  _wait_for_frontend env initial_port s = (Raise (UnboundLocalError "url_to_check"), s).
Proof.
  intro H. unfold _wait_for_frontend.
  rewrite bind_time_time, bind_get_mgr, bind_eq. unfold max_cycles.
  cbn [wait_loop]. rewrite bind_time_time.
  destruct (Z.ltb_spec (clock s) (clock s + 1000 * timeout_seconds (config (mgr s))));
    [lia | reflexivity].
Qed.

(** C7 (the code departs from it).  With [timeout_seconds = 0] the deadline
    has expired before the first cycle; [_wait_for_frontend] then does not
    return [(False, None, None)]: the log call after the loop reads
    [url_to_check], which is bound only inside the loop body, and the
    method raises [UnboundLocalError], in every environment and with any
    runtime state. *)
Theorem zero_timeout_raises_instead_of_returning :
  forall env initial_port cfg rt t c tr,
    _wait_for_frontend env initial_port
      {| mgr := {| config := with_timeout_seconds 0 cfg; runtime := rt |};
         tick := t; clock := c; trace := tr |} =
    (Raise (UnboundLocalError "url_to_check"),
     {| mgr := {| config := with_timeout_seconds 0 cfg; runtime := rt |};
        tick := t; clock := c; trace := tr |}).
Proof.
  intros. apply _wait_for_frontend_no_cycle. simpl. lia.
Qed.

(** The rest of the readiness contract holds as stated: with a positive
    timeout the method returns [(True, p, url p)] only out of a cycle whose
    request was answered 200 (lemma [probe_ready_outcome]), a non-200 status
    or a client error lets the loop go on, and the deadline after at least
    one cycle gives [(False, None, None)] (lemma [wait_loop_deadline]). *)
Example never_ready_times_out :
  fst (_wait_for_frontend
         (with_http_get
            (fun t _ => if Nat.even t then inr 503 else inl (ClientError "refused"))
            (with_path_exists (fun _ _ => inr false) friendly))
         3000
         (at_start {| config := with_timeout_seconds 12 (default_config (Some "/srv/app/frontend"));
                      runtime := runtime running |}))
  = Return (false, None, None).
Proof. vm_compute. reflexivity. Qed.

(** * Failover over the candidate ports *)

Section FailoverRuns.

Variable env : Env.
Variable attempt : Z -> M Result.

Lemma failover_loop_runs ports :
  forall s, exists probed attempted,
    FailoverRun env attempt ports s probed attempted
      (fst (failover_loop env attempt ports s))
      (snd (failover_loop env attempt ports s)).
Proof.
  induction ports as [|port rest IH]; intro s.
  - exists [], []. constructor.
  - cbn [failover_loop]. rewrite bind_eq. change (log Info (MsgTry port) s)
      with (Return tt, trying port s). cbv iota beta. rewrite bind_eq.
    destruct (_is_port_occupied env port (trying port s)) as [[[|] | e] s1] eqn:Hprobe.
    + rewrite bind_eq. change (log Warning (MsgOccupied port) s1)
        with (Return tt, warned port s1). cbv iota beta.
      destruct (IH (warned port s1)) as (probed & attempted & Hrun).
      exists (port :: probed), attempted. eapply run_skipped; eassumption.
    + rewrite bind_eq.
      destruct (attempt port s1) as [[result | e] s2] eqn:Hatt.
      * destruct (success result) eqn:Hs.
        -- exists [port], [port]. eapply run_won; eassumption.
        -- destruct (IH s2) as (probed & attempted & Hrun).
           exists (port :: probed), (port :: attempted).
           eapply run_failed; eassumption.
      * exists [port], [port]. eapply run_attempt_raised; eassumption.
    + exists [port], []. eapply run_probe_raised; eassumption.
Qed.

(** The ports probed are an initial segment of the candidates, all of them
    when nothing won; the attempted ports are among the probed ones. *)
Lemma FailoverRun_order ports s probed attempted o s' :
  FailoverRun env attempt ports s probed attempted o s' ->
  (exists untried, ports = probed ++ untried /\ (o = Return None -> untried = [])) /\
  incl attempted probed.
Proof.
  induction 1 as
    [ s
    | port rest s s1 probed attempted o s' Hp Hrun [(untried & Hu & Hall) Hincl]
    | port rest s s1 result s2 Hp Ha Hs
    | port rest s s1 result s2 probed attempted o s' Hp Ha Hs Hrun [(untried & Hu & Hall) Hincl]
    | port rest s e s1 Hp
    | port rest s s1 e s2 Hp Ha ].
  - split; [exists []; split; [reflexivity | reflexivity] | apply incl_refl].
  - split; [exists untried; split; [simpl; now rewrite Hu | exact Hall]
           | now apply incl_tl].
  - split; [exists rest; split; [reflexivity | discriminate] | apply incl_refl].
  - split; [exists untried; split; [simpl; now rewrite Hu | exact Hall]|].
    intros x [<- | Hx]; [now left | right; now apply Hincl].
  - split; [exists rest; split; [reflexivity | discriminate] | apply incl_nil_l].
  - split; [exists rest; split; [reflexivity | discriminate] | apply incl_refl].
Qed.

(** A result comes out of the loop only as the successful result of the
    attempt on the last port probed. *)
Lemma FailoverRun_winner ports s probed attempted result s' :
  FailoverRun env attempt ports s probed attempted (Return (Some result)) s' ->
  success result = true /\
  exists before winner s1,
    probed = before ++ [winner] /\ In winner attempted /\
    attempt winner s1 = (Return result, s').
Proof.
  remember (Return (Some result)) as o eqn:Ho.
  induction 1 as
    [ s
    | port rest s s1 probed attempted o s' Hp Hrun IH
    | port rest s s1 res s2 Hp Ha Hs
    | port rest s s1 res s2 probed attempted o s' Hp Ha Hs Hrun IH
    | port rest s e s1 Hp
    | port rest s s1 e s2 Hp Ha ]; try discriminate.
  - destruct (IH Ho) as (Hsucc & before & winner & sw & Hlast & Hin & Hatt).
    split; [exact Hsucc|]. exists (port :: before), winner, sw.
    repeat split; [simpl; now rewrite Hlast | exact Hin | exact Hatt].
  - injection Ho as ->. split; [exact Hs|]. exists [], port, s1.
    repeat split; [now left | exact Ha].
  - destruct (IH Ho) as (Hsucc & before & winner & sw & Hlast & Hin & Hatt).
    split; [exact Hsucc|]. exists (port :: before), winner, sw.
    repeat split; [simpl; now rewrite Hlast | now right | exact Hatt].
Qed.

End FailoverRuns.

(** C4.  For every environment, every behaviour [attempt] of the method
    called on a free port, and every state: an enabled manager with a
    frontend path runs the loop over [[start_port] + fallback_ports] and
    returns what the loop won (or the failure naming all candidates); the
    loop's run is one the specification allows ([FailoverRun]: an occupied
    port gets a warning and no attempt, a successful attempt ends the run);
    the ports probed are an initial segment of the candidates, the whole
    list when nothing won; attempts are made on probed ports only; and a
    result that comes out is the successful result of the attempt on the
    last port probed, the final state being the one that attempt left. *)
Theorem failover_tries_in_order_until_first_success :
  forall env attempt s,
    let ports := [start_port (config (mgr s))] ++ fallback_ports (config (mgr s)) in
    let run := failover_loop env attempt ports s in
    (enabled (config (mgr s)) = true ->
     frontend_path (config (mgr s)) <> None ->
     start_with_failover_on env attempt s =
     match run with
     | (Return (Some result), s') => (Return result, s')
     | (Return None, s') =>
         (Return (failure (exhausted_message ports)),
          snd (log Error (MsgExhausted (exhausted_message ports)) s'))
     | (Raise e, s') => (Raise e, s')
     end) /\
    exists probed attempted untried,
      FailoverRun env attempt ports s probed attempted (fst run) (snd run) /\
      ports = probed ++ untried /\
      incl attempted probed /\
      (fst run = Return None -> untried = []) /\
      (forall result,
          fst run = Return (Some result) ->
          success result = true /\
          exists before winner s1,
            probed = before ++ [winner] /\ In winner attempted /\
            attempt winner s1 = (Return result, snd run)).
Proof.
  intros env attempt s ports run. split.
  - intros He Hp. unfold start_with_failover_on.
    rewrite bind_get_mgr, He. cbn [negb].
    destruct (frontend_path (config (mgr s))); [|contradiction].
    cbv zeta. rewrite bind_eq. fold ports. fold run.
    destruct run as [[[result|] | e] s']; reflexivity.
  - destruct (failover_loop_runs env attempt ports s) as (probed & attempted & Hrun).
    fold run in Hrun.
    destruct (FailoverRun_order env attempt _ _ _ _ _ _ Hrun)
      as [(untried & Hu & Hall) Hincl].
    exists probed, attempted, untried.
    split; [exact Hrun|]. split; [exact Hu|]. split; [exact Hincl|].
    split; [exact Hall|].
    intros result Hres. rewrite Hres in Hrun.
    exact (FailoverRun_winner env attempt _ _ _ _ _ _ Hrun).
Qed.

Lemma failover_tries_in_order_until_first_success_witness :
  start_with_failover_on port_3000_taken up_on_3001 (at_start fresh) =
  (Return {| success := true; url := Some "http://localhost:3001"; port := Some 3001;
             result_pid := Some 4242; error := None |},
   {| mgr := fresh; tick := 2; clock := 10;
      trace := [ EvLog Info (MsgTry 3000); EvNetConnections;
                 EvLog Warning (MsgOccupied 3000);
                 EvLog Info (MsgTry 3001); EvNetConnections ] |}).
Proof.
  destruct (failover_tries_in_order_until_first_success
              port_3000_taken up_on_3001 (at_start fresh)) as [H _].
  rewrite H; [reflexivity | reflexivity | discriminate].
Defined.

(** The method the class really calls: in the friendly world, with port
    3000 taken, every free candidate is tried and the dependency step fails
    each of them. *)
Example friendly_world_start_fails :
  fst (start_with_failover port_3000_taken (at_start fresh)) =
  Return (failure
    "Impossible de démarrer le frontend sur les ports configurés: [3000, 3001, 3002]") /\
  trace (snd (start_with_failover port_3000_taken (at_start fresh))) =
  [ EvLog Info (MsgTry 3000); EvNetConnections; EvLog Warning (MsgOccupied 3000);
    EvLog Info (MsgTry 3001); EvNetConnections;
    EvPathExists "/srv/app/frontend/node_modules"; EvLog Info MsgInstalling;
    EvNpmInstall (Some "/srv/app/frontend"); EvNpmCommunicate 120; EvLog Info MsgInstalled;
    EvLog Info (MsgTry 3002); EvNetConnections;
    EvPathExists "/srv/app/frontend/node_modules"; EvLog Info MsgInstalling;
    EvNpmInstall (Some "/srv/app/frontend"); EvNpmCommunicate 120; EvLog Info MsgInstalled;
    EvLog Error (MsgExhausted
      "Impossible de démarrer le frontend sur les ports configurés: [3000, 3001, 3002]") ].
Proof. split; reflexivity. Qed.

(** * The entry point *)

(** C8 (the code departs from it).  The class has no attribute [build]:
    neither a method of that name nor an instance attribute.  The entry
    point's [await manager.build()] therefore never runs a build command:
    in every environment [python frontend_manager.py build] either exits
    with status 1 before the call (no frontend path found), or raises
    [AttributeError] at the call, or ends before both with the exception
    that an existence check of the constructor's path search raised. *)
Theorem build_is_not_an_operation :
  hasattr "build" = false /\
  forall env s,
    fst (main_build env s) = Return 1 \/
    fst (main_build env s) =
    Raise (AttributeError "'FrontendManager' object has no attribute 'build'") \/
    exists e,
      fst (_find_frontend_path env None s) = Raise e /\
      fst (main_build env s) = Raise e.
Proof.
  split; [reflexivity|]. intros env s. unfold main_build.
  rewrite bind_eq, init_outcome. cbn [raw_path empty_config].
  destruct (_find_frontend_path env None s) as [[[fp|] | e] s1].
  - right; left. reflexivity.
  - left. reflexivity.
  - right; right. exists e. split; reflexivity.
Qed.

Example build_in_the_friendly_world :
  fst (main_build friendly (at_start switched_off)) =
  Raise (AttributeError "'FrontendManager' object has no attribute 'build'").
Proof. reflexivity. Qed.

(** * What the dependency step means for the public operation *)

(** An enabled manager never reports a started frontend: whatever the
    environment does, no result of [start_with_failover] has
    [success = True]. *)
Lemma start_with_failover_never_starts env s result :
  enabled (config (mgr s)) = true ->
  fst (start_with_failover env s) = Return result ->
  success result = false.
Proof.
  intros He. unfold start_with_failover, start_with_failover_on.
  rewrite bind_get_mgr, He. cbn [negb].
  destruct (frontend_path (config (mgr s))) as [fp|];
    [|intro H; injection H as <-; reflexivity].
  cbv zeta. rewrite bind_eq.
  set (ports := [start_port (config (mgr s))] ++ fallback_ports (config (mgr s))).
  destruct (failover_loop_runs env (_start_on_port env) ports s)
    as (probed & attempted & Hrun).
  destruct (failover_loop env (_start_on_port env) ports s) as [[[won|] | e] s'];
    cbn [fst snd] in Hrun.
  - destruct (FailoverRun_winner env (_start_on_port env) _ _ _ _ _ _ Hrun)
      as (Hsucc & before & winner & s1 & _ & _ & Hatt).
    rewrite _start_on_port_eq in Hatt.
    destruct (_ensure_dependencies env s1) as [[v | e] s2];
      [|discriminate].
    injection Hatt as <- _. discriminate.
  - rewrite bind_eq. simpl. intro H. injection H as <-. reflexivity.
  - discriminate.
Qed.

(** * Further properties *)

(** ** The child's environment *)

Lemma dict_lookup_set_same k v d : dict_lookup k (dict_set k v d) = Some v.
Proof.
  induction d as [|[k' v'] d IH]; simpl.
  - now rewrite String.eqb_refl.
  - destruct (String.eqb k k') eqn:E; simpl; rewrite ?String.eqb_refl, ?E; auto.
Qed.

Lemma dict_lookup_set_other k k' v d :
  String.eqb k' k = false -> dict_lookup k' (dict_set k v d) = dict_lookup k' d.
Proof.
  intro Hne. induction d as [|[k0 v0] d IH]; simpl.
  - now rewrite Hne.
  - destruct (String.eqb k k0) eqn:E; simpl.
    + apply String.eqb_eq in E. subst k0. now rewrite Hne.
    + now rewrite IH.
Qed.

(** X1.  In the environment handed to the child, the four variables
    [BROWSER], [PORT], [GENERATE_SOURCEMAP] and [SKIP_PREFLIGHT_CHECK] have
    the manager's values whatever the inherited environment held for them,
    [PORT] being the decimal port; every other variable is inherited as it
    is. *)
Theorem frontend_env_overrides_and_inherits :
  forall env port,
    dict_lookup "BROWSER" (_get_frontend_env env port) = Some "none" /\
    dict_lookup "PORT" (_get_frontend_env env port) = Some (str_of_int port) /\
    dict_lookup "GENERATE_SOURCEMAP" (_get_frontend_env env port) = Some "false" /\
    dict_lookup "SKIP_PREFLIGHT_CHECK" (_get_frontend_env env port) = Some "true" /\
    forall k, overridden k = false ->
              dict_lookup k (_get_frontend_env env port) = dict_lookup k (os_environ env).
Proof.
  intros env port. unfold _get_frontend_env.
  split; [|split; [|split; [|split]]].
  - rewrite !dict_lookup_set_other by reflexivity. apply dict_lookup_set_same.
  - rewrite !dict_lookup_set_other by reflexivity. apply dict_lookup_set_same.
  - rewrite !dict_lookup_set_other by reflexivity. apply dict_lookup_set_same.
  - apply dict_lookup_set_same.
  - intros k Hk. unfold overridden in Hk.
    apply orb_false_elim in Hk as [Hk H4]. apply orb_false_elim in Hk as [Hk H3].
    apply orb_false_elim in Hk as [H1 H2].
    now rewrite !dict_lookup_set_other.
Qed.

Lemma frontend_env_overrides_and_inherits_witness :
  dict_lookup "PATH" (_get_frontend_env friendly 3001) = Some "/usr/bin".
Proof.
  destruct (frontend_env_overrides_and_inherits friendly 3001) as (_ & _ & _ & _ & H).
  rewrite H; reflexivity.
Defined.

(** ** Port occupancy *)

Lemma scan_connections_listens port conns :
  forallb has_laddr conns = true ->
  scan_connections port conns = inr (existsb (listens_on port) conns).
Proof.
  induction conns as [|c conns IH]; simpl; [reflexivity|].
  unfold has_laddr at 1, listens_on at 1.
  destruct (laddr_port c) as [p|]; simpl; [|discriminate].
  intro H. destruct ((p =? port) && String.eqb (conn_status c) CONN_LISTEN);
    [reflexivity | now apply IH].
Qed.

(** X2.  When the connection table can be read and every entry has a local
    address, a port is reported occupied exactly when some entry has that
    local port in state LISTEN (an established connection on the port does
    not count); the table is the only thing looked at and the manager is
    not touched. *)
Theorem port_occupied_iff_listener :
  forall env port s conns,
    net_connections env (tick s) = inr conns ->
    forallb has_laddr conns = true ->
    _is_port_occupied env port s =
    (Return (existsb (listens_on port) conns),
     {| mgr := mgr s; tick := S (tick s);
        clock := clock s + Z.of_N (delay env (tick s));
        trace := trace s ++ [EvNetConnections] |}).
Proof.
  intros env port s conns Hnet Hladdr.
  unfold _is_port_occupied. run_monad. rewrite Hnet. simpl.
  rewrite (scan_connections_listens port conns Hladdr). simpl.
  now rewrite Z.add_0_r.
Qed.

Lemma port_occupied_iff_listener_witness :
  fst (_is_port_occupied port_3000_taken 3000 (at_start fresh)) = Return true /\
  fst (_is_port_occupied port_3000_taken 22 (at_start fresh)) = Return true /\
  fst (_is_port_occupied port_3000_taken 3001 (at_start fresh)) = Return false.
Proof.
  split; [|split].
  - rewrite (port_occupied_iff_listener port_3000_taken 3000 (at_start fresh) _ eq_refl eq_refl).
    reflexivity.
  - rewrite (port_occupied_iff_listener port_3000_taken 22 (at_start fresh) _ eq_refl eq_refl).
    reflexivity.
  - rewrite (port_occupied_iff_listener port_3000_taken 3001 (at_start fresh) _ eq_refl eq_refl).
    reflexivity.
Defined.

(** ** Health check *)

(** X3.  [health_check] never raises and never changes the manager.  Its
    answer is [True] exactly when a non-empty URL is recorded and the one GET
    it sends there is answered with status 200; any other status and any
    exception give [False]; without a URL no request is sent at all. *)
Theorem health_check_is_one_request :
  forall env s,
    fst (health_check env s) =
    Return (match current_url (runtime (mgr s)) with
            | Some u =>
                negb (String.eqb u "") &&
                match http_get env (tick s) u with
                | inr status => status =? 200
                | inl _ => false
                end
            | None => false
            end) /\
    mgr (snd (health_check env s)) = mgr s /\
    exists evs,
      trace (snd (health_check env s)) = trace s ++ evs /\
      gets evs = match current_url (runtime (mgr s)) with
                 | Some u => if String.eqb u "" then [] else [u]
                 | None => []
                 end.
Proof.
  intros env s. unfold health_check. rewrite bind_get_mgr.
  destruct (current_url (runtime (mgr s))) as [[|c u]|].
  - repeat split. exists []. now rewrite app_nil_r.
  - cbn [truthy_str negb String.eqb andb]. run_monad.
    destruct (http_get env (tick s) (String c u)) as [e | status]; simpl.
    + repeat split. eexists. split; [rewrite <- app_assoc; reflexivity | reflexivity].
    + destruct (status =? 200); simpl; repeat split; eexists;
        (split; [rewrite <- ?app_assoc; reflexivity | reflexivity]).
  - repeat split. exists []. now rewrite app_nil_r.
Qed.

(** ** Stopping, seen from outside *)

(** X4.  [stop] never raises.  If the manager holds a process, [stop] closes
    the log files that are set, standard output first, each exactly once
    (whatever terminate, wait, kill or close answer) and leaves both
    attributes [None]; if it holds none, it closes nothing and leaves them
    as they are. *)
Theorem stop_returns_and_closes_once :
  forall env s,
    fst (stop env s) = Return tt /\
    exists evs,
      trace (snd (stop env s)) = trace s ++ evs /\
      closes evs =
        (if is_some (process (runtime (mgr s)))
         then opt_list (frontend_stdout_log_file (runtime (mgr s))) ++
              opt_list (frontend_stderr_log_file (runtime (mgr s)))
         else []) /\
      frontend_stdout_log_file (runtime (mgr (snd (stop env s)))) =
        (if is_some (process (runtime (mgr s))) then None
         else frontend_stdout_log_file (runtime (mgr s))) /\
      frontend_stderr_log_file (runtime (mgr (snd (stop env s)))) =
        (if is_some (process (runtime (mgr s))) then None
         else frontend_stderr_log_file (runtime (mgr s))).
Proof.
  intros env s. destruct (process (runtime (mgr s))) as [p|] eqn:Hp; cbn [is_some].
  - destruct (stop_with_process env s p Hp) as (s' & Hs & _ & Hr & evs & Ht & Hc).
    rewrite Hs. cbn [fst snd]. split; [reflexivity|].
    exists evs. rewrite Hr. repeat split; assumption.
  - rewrite (stop_without_process env s Hp). cbn [fst snd]. split; [reflexivity|].
    exists []. rewrite app_nil_r. repeat split.
Qed.

(** X5.  Whatever the state and the environment, [get_status] after [stop]
    reports [running = False] and no process object; the URL and the pid
    are [None] if a process was held (unchanged otherwise); the port and
    the configuration part of the status are those of before. *)
Theorem status_after_stop :
  forall env s,
    let before := get_status (mgr s) in
    let after := get_status (mgr (snd (stop env s))) in
    status_running after = false /\
    status_process after = None /\
    status_url after = (if status_running before then None else status_url before) /\
    status_pid after = (if status_running before then None else status_pid before) /\
    status_port after = status_port before /\
    status_enabled after = status_enabled before /\
    status_path after = status_path before.
Proof.
  intros env s. cbv zeta. unfold get_status. cbn [status_running status_process
    status_url status_pid status_port status_enabled status_path].
  destruct (process (runtime (mgr s))) as [p|] eqn:Hp.
  - destruct (stop_with_process env s p Hp) as (s' & Hs & Hcfg & Hr & _).
    rewrite Hs. cbn [snd]. rewrite Hr, Hcfg. repeat split.
  - rewrite (stop_without_process env s Hp). cbn [snd]. rewrite Hp. repeat split.
Qed.

Ltac find_in_list := simpl; repeat (try (left; reflexivity); right).

(** X6.  [stop] on a manager that holds a process always begins by sending
    the terminate signal, and it sends the kill signal exactly when the
    terminate call went through and the ten-second wait ended with
    [TimeoutExpired]: neither an error of [terminate] nor any other error
    of the wait leads to a kill. *)
Theorem kill_exactly_after_wait_timeout :
  forall env s p,
    process (runtime (mgr s)) = Some p ->
    exists rest,
      trace (snd (stop env s)) =
        trace s ++ EvLog Info (MsgStopping (popen_pid p)) :: EvTerminate :: rest /\
      (In EvKill rest <->
       proc_terminate env (tick s) = None /\
       proc_wait env (S (tick s)) = Some TimeoutExpired).
Proof.
  intros env [[cfg [pr cp cu pd out err]] t c tr] p Hp. simpl in Hp. subst pr.
  unfold stop.
  cbv beta iota delta [close_sink bind try_except try_finally ext_unit ext ext_for
    log ret raise get_mgr set_runtime is_Exception is_TimeoutExpired]; simpl.
  destruct (proc_terminate env t) as [e0|] eqn:Hterm; simpl.
  - destruct out as [ho|], err as [he|]; simpl;
      repeat match goal with
        | |- context [file_close env ?n] => destruct (file_close env n); simpl
        end;
      eexists; (split; [rewrite <- ?app_assoc; reflexivity|]);
      (split; [intro Hin; simpl in Hin;
               repeat (destruct Hin as [Hin|Hin]; try discriminate Hin); contradiction
              | intros [Ha _]; discriminate Ha]).
  - destruct (proc_wait env (S t)) as [e1|] eqn:Hwait; simpl.
    + destruct e1; simpl;
        repeat match goal with
          | |- context [proc_kill env ?n] => destruct (proc_kill env n); simpl
          | |- context [proc_wait env ?n] => destruct (proc_wait env n); simpl
          end;
        destruct out as [ho|], err as [he|]; simpl;
        repeat match goal with
          | |- context [file_close env ?n] => destruct (file_close env n); simpl
          end;
        eexists; (split; [rewrite <- ?app_assoc; reflexivity|]);
        (split; [intro Hin; simpl in Hin;
                 repeat (destruct Hin as [Hin|Hin]; try discriminate Hin);
                 try contradiction; split; reflexivity
                | intros [_ Hb]; try discriminate Hb; find_in_list]).
    + destruct out as [ho|], err as [he|]; simpl;
        repeat match goal with
          | |- context [file_close env ?n] => destruct (file_close env n); simpl
          end;
        eexists; (split; [rewrite <- ?app_assoc; reflexivity|]);
        (split; [intro Hin; simpl in Hin;
                 repeat (destruct Hin as [Hin|Hin]; try discriminate Hin); contradiction
                | intros [_ Hb]; discriminate Hb]).
Qed.

Lemma kill_exactly_after_wait_timeout_witness :
  exists rest,
    trace (snd (stop stubborn_child (at_start after_start))) =
      [] ++ EvLog Info (MsgStopping 4242) :: EvTerminate :: rest /\
    In EvKill rest.
Proof.
  destruct (kill_exactly_after_wait_timeout stubborn_child (at_start after_start)
              {| popen_pid := 4242 |} eq_refl) as (rest & Ht & Hk).
  exists rest. split; [exact Ht|]. apply Hk. split; reflexivity.
Defined.

(** ** Readiness wait, as a whole *)

(** X7.  Whatever [_wait_for_frontend] returns is either
    [(False, None, None)] or [(True, p, "http://localhost:<p>")] for one
    port [p]: a ready answer always carries a port and the URL of that very
    port. *)
Theorem ready_answer_is_consistent :
  forall env initial_port s r,
    fst (_wait_for_frontend env initial_port s) = Return r ->
    r = (false, None, None) \/
    exists p, r = (true, Some p, Some ("http://localhost:" +++ str_of_int p)).
Proof.
  intros env initial_port s r.
  destruct (_wait_for_frontend_eq env initial_port s) as (w & Hw & Hsome & ->).
  pose proof (wait_loop_result env
                (max_cycles (1000 * timeout_seconds (config (mgr s))))
                (clock s) (clock s + 1000 * timeout_seconds (config (mgr s)))
                initial_port None s) as Hshape.
  rewrite Hw in Hshape.
  destruct w as [[[ready|] | e] s']; cbn [fst] in *.
  - intro H. injection H as <-. now apply Hshape.
  - contradiction.
  - discriminate.
Qed.

Lemma ready_answer_is_consistent_witness :
  (true, Some 3001, Some "http://localhost:3001") = (false, None, None) \/
  exists p, (true, Some 3001, Some "http://localhost:3001")
            = (true, Some p, Some ("http://localhost:" +++ str_of_int p)).
Proof.
  apply (ready_answer_is_consistent announcing_3001 3000 (at_start running)).
  reflexivity.
Defined.

Section NeverReady.

Variable env : Env.
Hypothesis never_200 : forall t u, http_get env t u <> inr 200.

Lemma probe_ready_never start url s : fst (probe_ready env start url s) <> Return true.
Proof.
  rewrite probe_ready_outcome.
  destruct (http_get env (tick s) url) as [e | status] eqn:Hget.
  - destruct (is_ClientError e); discriminate.
  - destruct (Z.eqb_spec status 200) as [-> | Hne]; [|discriminate].
    now apply never_200 in Hget.
Qed.

Lemma poll_cycle_never start detected s r :
  fst (poll_cycle env start detected s) = Return (Finished r) -> r = (false, None, None).
Proof.
  unfold poll_cycle. rewrite bind_eq.
  destruct (poll env s) as [[[code|] | e] s1]; [| |discriminate].
  - rewrite bind_eq. simpl. intro H. now injection H as <-.
  - rewrite bind_eq. destruct (scrape_log env detected s1) as [[d | e] s2]; [|discriminate].
    cbv zeta. rewrite bind_eq.
    pose proof (probe_ready_never start (url_of_port d) s2) as Hnever.
    destruct (probe_ready env start (url_of_port d) s2) as [[[|] | e] s3];
      [now contradiction Hnever | | discriminate].
    rewrite bind_eq. simpl. discriminate.
Qed.

Lemma wait_loop_never cycles start_time end_time detected url s r :
  fst (wait_loop env cycles start_time end_time detected url s) = Return (Some r) ->
  r = (false, None, None).
Proof.
  revert detected url s.
  induction cycles as [|n IH]; intros detected url s;
    cbn [wait_loop]; rewrite bind_time_time; destruct (clock s <? end_time).
  - discriminate.
  - rewrite bind_get_mgr. destruct url; simpl; [|discriminate].
    intro H. now injection H as <-.
  - rewrite bind_eq.
    pose proof (poll_cycle_never start_time detected s) as Hfin.
    destruct (poll_cycle env start_time detected s) as [[[r' | d u] | e] s1];
      [| |discriminate].
    + simpl. intro H. injection H as <-. now apply Hfin.
    + apply IH.
  - rewrite bind_get_mgr. destruct url; simpl; [|discriminate].
    intro H. now injection H as <-.
Qed.

End NeverReady.

(** X8.  If no request is ever answered with status 200, the wait never
    reports readiness: whatever it returns is [(False, None, None)],
    however the log, the child and the other answers behave. *)
Theorem no_200_no_readiness :
  forall env initial_port s r,
    (forall t u, http_get env t u <> inr 200) ->
    fst (_wait_for_frontend env initial_port s) = Return r ->
    r = (false, None, None).
Proof.
  intros env initial_port s r Hno.
  destruct (_wait_for_frontend_eq env initial_port s) as (w & Hw & Hsome & ->).
  pose proof (wait_loop_never env Hno
                (max_cycles (1000 * timeout_seconds (config (mgr s))))
                (clock s) (clock s + 1000 * timeout_seconds (config (mgr s)))
                initial_port None s) as Hshape.
  rewrite Hw in Hshape.
  destruct w as [[[ready|] | e] s']; cbn [fst] in *.
  - intro H. injection H as <-. now apply Hshape.
  - intro H. now injection H as <-.
  - discriminate.
Qed.

Lemma never_ready_absorbed t u : absorbed (http_get never_ready t u) = true.
Proof. simpl. destruct (Nat.even t); reflexivity. Qed.

Lemma never_ready_no_200 t u : http_get never_ready t u <> inr 200.
Proof. simpl. destruct (Nat.even t); discriminate. Qed.

Lemma no_200_no_readiness_witness :
  (false, @None Z, @None string) = (false, None, None).
Proof.
  apply (no_200_no_readiness never_ready 3000 (at_start short_wait)
           (false, None, None) never_ready_no_200).
  vm_compute. reflexivity.
Defined.

Section AlwaysAbsorbed.

Variable env : Env.
Hypothesis all_absorbed : forall t u, absorbed (http_get env t u) = true.
Hypothesis log_checked : forall t, exists b, path_exists env t stdout_log_path = inr b.

Lemma returns_scrape_log detected : returns (scrape_log env detected).
Proof.
  intro s. unfold scrape_log. rewrite bind_eq.
  destruct (log_checked (tick s)) as [b Hb].
  rewrite (exists_answer env _ _ _ Hb).
  destruct b; [|eexists; reflexivity].
  apply returns_try_except_all. intro e. apply returns_ret.
Qed.

Lemma returns_probe_ready start url : returns (probe_ready env start url).
Proof.
  intro s. rewrite probe_ready_outcome.
  pose proof (all_absorbed (tick s) url) as H. unfold absorbed in H.
  destruct (http_get env (tick s) url) as [e | status]; [rewrite H|]; eexists; reflexivity.
Qed.

Lemma poll_cycle_returns start detected s :
  process (runtime (mgr s)) <> None ->
  exists ended, fst (poll_cycle env start detected s) = Return ended.
Proof.
  intro Hp. unfold poll_cycle, poll. rewrite bind_assoc, bind_get_mgr.
  destruct (process (runtime (mgr s))) as [p|]; [|contradiction].
  rewrite bind_eq. unfold ext at 1, ext_for at 1. cbv iota beta.
  destruct (proc_poll env (tick s)) as [code|]; [eexists; reflexivity|].
  rewrite bind_eq.
  match goal with
  | |- context [scrape_log env detected ?s1] =>
      destruct (returns_scrape_log detected s1) as [d Hd];
      destruct (scrape_log env detected s1) as [[d' | e] s2];
      cbn [fst] in Hd; [|discriminate]
  end.
  cbv zeta. rewrite bind_eq.
  destruct (returns_probe_ready start (url_of_port d') s2) as [b Hb].
  destruct (probe_ready env start (url_of_port d') s2) as [[[|] | e] s3];
    cbn [fst] in Hb; try discriminate; eexists; reflexivity.
Qed.

Lemma wait_loop_returns cycles start_time end_time detected url s :
  process (runtime (mgr s)) <> None ->
  url <> None \/ clock s < end_time ->
  exists answer,
    fst (wait_loop env cycles start_time end_time detected url s) = Return answer.
Proof.
  revert detected url s.
  induction cycles as [|n IH]; intros detected url s Hp Hurl;
    cbn [wait_loop]; rewrite bind_time_time;
    destruct (Z.ltb_spec (clock s) end_time) as [Hlt | Hge].
  - eexists; reflexivity.
  - rewrite bind_get_mgr. destruct url as [u|]; [eexists; reflexivity|].
    destruct Hurl; [contradiction | lia].
  - rewrite bind_eq.
    destruct (poll_cycle_returns start_time detected s Hp) as [ended Hended].
    pose proof (keeps_poll_cycle env start_time detected s) as (Hm & _).
    destruct (poll_cycle env start_time detected s) as [[ended' | e] s1];
      cbn [fst snd] in *; [|discriminate].
    destruct ended' as [r | d u]; [eexists; reflexivity|].
    apply IH; [now rewrite Hm | left; discriminate].
  - rewrite bind_get_mgr. destruct url as [u|]; [eexists; reflexivity|].
    destruct Hurl; [contradiction | lia].
Qed.

End AlwaysAbsorbed.

(** X9.  With a process at hand and a positive timeout, the wait always
    returns a result as long as the HTTP client answers with statuses or
    client errors only and the existence check of the log is answered: such
    answers, a missing log, a log that cannot be read or decoded, an
    announcement that [int] refuses, and the deadline never surface as an
    exception.  (An error of the existence check itself is not caught by
    the method.) *)
Theorem wait_absorbs_statuses_and_client_errors :
  forall env initial_port s,
    process (runtime (mgr s)) <> None ->
    0 < timeout_seconds (config (mgr s)) ->
    (forall t u, absorbed (http_get env t u) = true) ->
    (forall t, exists b, path_exists env t stdout_log_path = inr b) ->
    exists r, fst (_wait_for_frontend env initial_port s) = Return r.
Proof.
  intros env initial_port s Hp Hpos Habs Hlog.
  destruct (_wait_for_frontend_eq env initial_port s) as (w & Hw & Hsome & ->).
  destruct (wait_loop_returns env Habs Hlog
              (max_cycles (1000 * timeout_seconds (config (mgr s))))
              (clock s) (clock s + 1000 * timeout_seconds (config (mgr s)))
              initial_port None s Hp) as [answer Hanswer]; [right; lia|].
  rewrite Hw in Hanswer.
  destruct w as [[[ready|] | e] s']; cbn [fst] in *; try discriminate;
    eexists; reflexivity.
Qed.

Lemma unreadable_log_absorbed t u : absorbed (http_get unreadable_log t u) = true.
Proof. simpl. destruct (Nat.even t); reflexivity. Qed.

Lemma wait_absorbs_statuses_and_client_errors_witness :
  exists r, fst (_wait_for_frontend unreadable_log 3000 (at_start short_wait)) = Return r.
Proof.
  apply (wait_absorbs_statuses_and_client_errors unreadable_log 3000 (at_start short_wait)).
  - discriminate.
  - reflexivity.
  - exact unreadable_log_absorbed.
  - intro t. exists true. reflexivity.
Defined.

(** The existence check of the log is outside the [try]: its error ends the
    wait. *)
Example unsearchable_logs_directory :
  fst (_wait_for_frontend
         (with_path_exists (fun _ _ => inl (OtherException "[Errno 13] Permission denied"))
            friendly)
         3000 (at_start running))
  = Raise (OtherException "[Errno 13] Permission denied").
Proof. reflexivity. Qed.

(** ** The announcement pattern *)

Lemma text_of_string_String c r :
  text_of_string (String c r) = N_of_ascii c :: text_of_string r.
Proof. reflexivity. Qed.

Lemma text_of_string_length str : List.length (text_of_string str) = String.length str.
Proof. induction str as [|c r IH]; [reflexivity|]. rewrite text_of_string_String. simpl. now rewrite IH. Qed.

(** The characters [str] prints are decimal digits in every interpreter. *)
Ltac ascii_decimal env :=
  repeat match goal with
  | |- context [decimal env (N_of_ascii ?c)] =>
      let v := eval vm_compute in (decimal env (N_of_ascii c)) in
      change (decimal env (N_of_ascii c)) with v
  end.

Lemma digits_value_acc_pos env d acc :
  digits_value_acc env (Z.pos acc) (text_of_string (NilEmpty.string_of_uint d))
  = Z.pos (Pos.of_uint_acc d acc).
Proof.
  revert acc. induction d; intro acc;
    cbn [NilEmpty.string_of_uint Pos.of_uint_acc]; [reflexivity | ..];
    rewrite text_of_string_String; cbn [digits_value_acc]; rewrite <- IHd;
    f_equal; ascii_decimal env; lia.
Qed.

Lemma digits_value_acc_zero env d :
  digits_value_acc env 0 (text_of_string (NilEmpty.string_of_uint d))
  = Z.of_N (Pos.of_uint d).
Proof.
  induction d; cbn [NilEmpty.string_of_uint Pos.of_uint]; [reflexivity | ..];
    rewrite text_of_string_String; cbn [digits_value_acc]; ascii_decimal env;
    cbn [Z.mul Z.add Z.of_N]; [exact IHd | apply digits_value_acc_pos ..].
Qed.

(** Reading a printed port gives the port back. *)
Lemma digits_value_str_of_int env n :
  0 <= n -> digits_value env (text_of_string (str_of_int n)) = n.
Proof.
  intro Hn. unfold digits_value, str_of_int. destruct n as [|p|p]; [reflexivity | | lia].
  cbn [Z.to_int NilZero.string_of_int]. unfold NilZero.string_of_uint.
  pose proof (DecimalPos.Unsigned.of_to p) as Hp.
  destruct (Pos.to_uint p) eqn:E; try (rewrite digits_value_acc_zero, Hp; reflexivity).
  simpl in Hp. discriminate.
Qed.

Lemma all_decimal_uint env d :
  forallb (isdecimal env) (text_of_string (NilEmpty.string_of_uint d)) = true.
Proof.
  induction d; cbn [NilEmpty.string_of_uint]; [reflexivity | ..];
    rewrite text_of_string_String; cbn [forallb]; rewrite IHd;
    unfold isdecimal; ascii_decimal env; reflexivity.
Qed.

Lemma str_of_int_decimal env n :
  0 <= n ->
  text_of_string (str_of_int n) <> [] /\
  forallb (isdecimal env) (text_of_string (str_of_int n)) = true.
Proof.
  intro Hn. unfold str_of_int. destruct n as [|p|p]; [| | lia].
  - split; [discriminate | reflexivity].
  - cbn [Z.to_int NilZero.string_of_int]. unfold NilZero.string_of_uint.
    pose proof (all_decimal_uint env (Pos.to_uint p)) as Hall.
    destruct (Pos.to_uint p) eqn:E;
      [split; [discriminate | reflexivity] | ..];
      (split; [cbn [NilEmpty.string_of_uint]; rewrite text_of_string_String; discriminate
              | exact Hall]).
Qed.

Lemma strip_prefix_app p s : strip_prefix p (p ++ s) = Some s.
Proof.
  induction p as [|a p IH]; simpl; [reflexivity|].
  now rewrite N.eqb_refl.
Qed.

Lemma drop_while_blanks env sp r :
  forallb (isspace env) sp = true ->
  match r with c :: _ => isspace env c | [] => false end = false ->
  drop_while (isspace env) (sp ++ r) = r.
Proof.
  intros Hsp Hr. induction sp as [|c sp IH]; cbn [app forallb drop_while] in *.
  - destruct r as [|c r]; [reflexivity|]. cbn [drop_while]. now rewrite Hr.
  - apply andb_prop in Hsp as [Hc Hsp]. rewrite Hc. now apply IH.
Qed.

Lemma take_while_decimals env ds post :
  forallb (isdecimal env) ds = true ->
  starts_with_decimal env post = false ->
  take_while (isdecimal env) (ds ++ post) = ds.
Proof.
  intros Hds Hpost. induction ds as [|c ds IH]; cbn [app forallb take_while] in *.
  - destruct post as [|c post]; [reflexivity|].
    cbn [starts_with_decimal take_while] in *. now rewrite Hpost.
  - apply andb_prop in Hds as [Hc Hds]. rewrite Hc. f_equal. now apply IH.
Qed.

Lemma search_local_skips env pre s :
  forallb (fun c => negb (c =? capital_L)%N) pre = true ->
  search_local env (pre ++ s) = search_local env s.
Proof.
  intro Hpre. induction pre as [|c pre IH]; [reflexivity|].
  cbn [forallb] in Hpre. apply andb_prop in Hpre as [Hc Hpre].
  cbn [app search_local]. unfold match_local_at at 1.
  rewrite text_of_string_String. cbn [strip_prefix].
  change (N_of_ascii "L") with capital_L. rewrite N.eqb_sym.
  destruct (c =? capital_L)%N; [discriminate|]. now apply IH.
Qed.

(** A line in the dev server's format is read as the digits it prints:
    [Local:], at least one blank, [http://localhost:], the decimal port,
    then something that is not a decimal character; before it, any text
    without a capital L. *)
Lemma search_local_announcement_of env pre sp post n :
  0 <= n ->
  forallb (fun c => negb (c =? capital_L)%N) pre = true ->
  sp <> [] ->
  forallb (isspace env) sp = true ->
  starts_with_decimal env post = false ->
  search_local env
    (pre ++ text_of_string "Local:" ++ sp ++ text_of_string "http://localhost:"
     ++ text_of_string (str_of_int n) ++ post)
  = Some (text_of_string (str_of_int n)).
Proof.
  intros Hn Hpre Hne Hsp Hpost. rewrite search_local_skips by exact Hpre.
  destruct (str_of_int_decimal env n Hn) as (Hd & Hds).
  destruct sp as [|b sp]; [contradiction|].
  cbn [forallb] in Hsp. apply andb_prop in Hsp as [Hb Hsp].
  assert (Hm : match_local_at env
                 (text_of_string "Local:" ++ (b :: sp) ++ text_of_string "http://localhost:"
                  ++ text_of_string (str_of_int n) ++ post)
               = Some (text_of_string (str_of_int n))).
  { unfold match_local_at. rewrite strip_prefix_app. cbn [app].
    rewrite Hb.
    rewrite drop_while_blanks by (exact Hsp || reflexivity).
    rewrite strip_prefix_app, take_while_decimals by assumption.
    destruct (text_of_string (str_of_int n)); [contradiction | reflexivity]. }
  destruct (text_of_string "Local:" ++ (b :: sp) ++ text_of_string "http://localhost:"
            ++ text_of_string (str_of_int n) ++ post);
    cbn [search_local]; now rewrite Hm.
Qed.

(** X10.  A readable standard-output log that holds, after any text without
    a capital L, the line [Local:<blanks>http://localhost:<n>] followed by
    something that is no decimal character, where the blanks are those of
    [\s] (Unicode ones included) and [n >= 0] is printed as [str] prints
    it: the log scrape tracks port [n] when the interpreter's limit on
    integer strings admits that many digits (as it does up to 640 digits
    in any case), and keeps the port tracked before when it does not
    ([int] raises, the [except] passes). *)
Theorem scrape_reads_the_announced_port :
  forall env detected s pre sp post n,
    0 <= n ->
    forallb (fun c => negb (c =? capital_L)%N) pre = true ->
    sp <> [] ->
    forallb (isspace env) sp = true ->
    starts_with_decimal env post = false ->
    path_exists env (tick s) stdout_log_path = inr true ->
    read_file env (S (tick s)) stdout_log_path =
      inr (pre ++ text_of_string "Local:" ++ sp ++ text_of_string "http://localhost:"
           ++ text_of_string (str_of_int n) ++ post) ->
    fst (scrape_log env detected s) =
    Return (if exceeds_int_limit env (String.length (str_of_int n))
            then detected else n).
Proof.
  intros env detected s pre sp post n Hn Hpre Hne Hsp Hpost Hex Hread.
  unfold scrape_log. rewrite bind_eq, (exists_answer env _ _ _ Hex).
  unfold try_except. rewrite bind_eq.
  unfold ext_exc. rewrite bind_eq. unfold ext, ext_for. cbn [tick].
  rewrite Hread. cbv iota beta. unfold ret at 1. cbv iota beta.
  rewrite (search_local_announcement_of env pre sp post n Hn Hpre Hne Hsp Hpost).
  cbv iota beta. unfold python_int.
  rewrite text_of_string_length, (digits_value_str_of_int env n Hn).
  destruct (exceeds_int_limit env (String.length (str_of_int n)));
    [reflexivity|].
  rewrite bind_ret.
  destruct (Z.eqb_spec n detected) as [-> | Hneq]; reflexivity.
Qed.

Lemma scrape_reads_the_announced_port_witness :
  fst (scrape_log announcing_nbsp_3001 3000 (at_start running)) = Return 3001.
Proof.
  exact (scrape_reads_the_announced_port announcing_nbsp_3001 3000 (at_start running)
           (text_of_string "Compiled successfully!  ") [160; 32]%N
           (text_of_string "/") 3001
           ltac:(lia) eq_refl ltac:(discriminate) eq_refl eq_refl eq_refl eq_refl).
Defined.

(** An announcement with more digits than [int] converts: the tracked port
    stays, and the probe goes where it went before. *)
Example oversized_announcement_keeps_port :
  option_map (fun ds => python_int friendly ds)
    (search_local friendly (text_of_string "Local: http://localhost:" ++ repeat 57%N 4301))
  = Some (inl (ValueError "Exceeds the limit for integer string conversion")) /\
  fst (_wait_for_frontend announcing_oversized 3000 (at_start running)) =
  Return (true, Some 3000, Some "http://localhost:3000").
Proof. split; vm_compute; reflexivity. Qed.

(** ** The dependency step on its own *)

Lemma returns_try_except2_all A (body : M A) c1 h1 h2 :
  (forall e, returns (h1 e)) -> (forall e, returns (h2 e)) ->
  returns (try_except2 body c1 h1 is_Exception h2).
Proof.
  intros H1 H2 s. unfold try_except2.
  destruct (body s) as [[a | e] s1]; simpl; [now exists a|].
  destruct (c1 e); [apply H1 | apply H2].
Qed.

(** X11.  With a frontend path, an answered existence check of
    [node_modules], a [Popen] that does not raise [TimeoutExpired] and a
    [kill] that does not raise, [_ensure_dependencies] does not raise and
    does not change the manager, whatever [npm] does (missing binary,
    non-zero exit, undecodable output, timeout): it ends with [None].  When
    [node_modules] is there, the existence check is all it does. *)
Theorem ensure_dependencies_swallows_everything :
  forall env s fp present,
    frontend_path (config (mgr s)) = Some fp ->
    path_exists env (tick s) (path_join fp "node_modules") = inr present ->
    (forall t e, npm_popen env t = Some e -> is_TimeoutExpired e = false) ->
    (forall t, npm_kill env t = None) ->
    fst (_ensure_dependencies env s) = Return PyNone /\
    mgr (snd (_ensure_dependencies env s)) = mgr s /\
    (present = true ->
     trace (snd (_ensure_dependencies env s)) =
     trace s ++ [EvPathExists (path_join fp "node_modules")]).
Proof.
  intros env s fp present Hfp Hex Hpopen Hkill. split; [|split].
  - destruct (_ensure_dependencies_value env s) as [H | [e H]]; [exact H|].
    exfalso. revert H. unfold _ensure_dependencies.
    rewrite bind_get_mgr, Hfp. cbv zeta.
    rewrite bind_eq, (exists_answer env _ _ _ Hex).
    match goal with
    | |- fst (bind ?m ?k ?s1) = _ -> _ =>
        assert (Hr : returns (bind m k))
    end.
    { apply returns_bind; [|intro; apply returns_ret].
      destruct (negb present); [|apply returns_ret].
      apply returns_bind; [apply returns_log|]. intros _ s0.
      rewrite bind_eq. unfold ext at 1, ext_for at 1. cbv iota beta.
      destruct (npm_popen env (tick s0)) as [e0|] eqn:E.
      - rewrite (Hpopen _ _ E). apply returns_log.
      - apply returns_try_except2_all; intro e0; [|apply returns_log].
        apply returns_bind; [|intro; apply returns_log].
        intro s1. unfold ext_unit, bind, ext, ext_for. rewrite Hkill.
        eexists; reflexivity. }
    match goal with
    | |- fst (?m ?s1) = _ -> _ => destruct (Hr s1) as [v Hv]; rewrite Hv
    end.
    discriminate.
  - apply keeps__ensure_dependencies.
  - intros ->. unfold _ensure_dependencies. rewrite bind_get_mgr, Hfp. cbv zeta.
    rewrite bind_eq, (exists_answer env _ _ _ Hex). cbn [negb].
    reflexivity.
Qed.

Lemma ensure_dependencies_swallows_everything_witness :
  fst (_ensure_dependencies (with_npm_communicate (fun _ => CommTimeout) friendly)
         (at_start fresh)) = Return PyNone.
Proof.
  apply (ensure_dependencies_swallows_everything
           (with_npm_communicate (fun _ => CommTimeout) friendly) (at_start fresh)
           "/srv/app/frontend" false);
    [reflexivity | reflexivity | discriminate | reflexivity].
Defined.

(** The run of that witness: the install is killed and the timeout logged. *)
Example install_timeout_run :
  trace (snd (_ensure_dependencies (with_npm_communicate (fun _ => CommTimeout) friendly)
                (at_start fresh))) =
  [ EvPathExists "/srv/app/frontend/node_modules"; EvLog Info MsgInstalling;
    EvNpmInstall (Some "/srv/app/frontend"); EvNpmCommunicate 120;
    EvNpmKill; EvLog Error MsgInstallTimeout ].
Proof. reflexivity. Qed.

(** The two calls of the method that sit outside its handlers: an existence
    check that raises, and a [kill] that raises in the timeout handler. *)
Example ensure_dependencies_escapes :
  fst (_ensure_dependencies
         (with_path_exists (fun _ _ => inl (OtherException "[Errno 13] Permission denied"))
            friendly)
         (at_start fresh))
  = Raise (OtherException "[Errno 13] Permission denied") /\
  fst (_ensure_dependencies
         (with_npm_kill (fun _ => Some (OtherException "[Errno 1] Operation not permitted"))
            (with_npm_communicate (fun _ => CommTimeout) friendly))
         (at_start fresh))
  = Raise (OtherException "[Errno 1] Operation not permitted").
Proof. split; reflexivity. Qed.

(** ** Every candidate occupied *)

Lemma failover_loop_all_occupied env attempt ports s :
  (forall port s', In port ports -> fst (_is_port_occupied env port s') = Return true) ->
  fst (failover_loop env attempt ports s) = Return None /\
  mgr (snd (failover_loop env attempt ports s)) = mgr s /\
  forall attempt',
    failover_loop env attempt' ports s = failover_loop env attempt ports s.
Proof.
  revert s. induction ports as [|port rest IH]; intros s Hocc.
  - repeat split.
  - cbn [failover_loop]. rewrite bind_eq.
    change (log Info (MsgTry port) s) with (Return tt, trying port s). cbv iota beta.
    pose proof (Hocc port (trying port s) (or_introl eq_refl)) as Hp.
    pose proof (keeps__is_port_occupied env port (trying port s)) as (Hm & _).
    assert (Hrest : forall p s', In p rest ->
                                 fst (_is_port_occupied env p s') = Return true)
      by (intros p s' Hin; apply Hocc; now right).
    destruct (IH (warned port (snd (_is_port_occupied env port (trying port s)))) Hrest)
      as (Hnone & Hmgr & Hsame).
    split; [|split].
    + rewrite bind_eq.
      destruct (_is_port_occupied env port (trying port s)) as [[b | e] s1];
        cbn [fst snd] in *; [injection Hp as -> | discriminate].
      rewrite bind_eq. exact Hnone.
    + rewrite bind_eq.
      destruct (_is_port_occupied env port (trying port s)) as [[b | e] s1];
        cbn [fst snd] in *; [injection Hp as -> | discriminate].
      rewrite bind_eq. cbv iota beta.
      change (log Warning (MsgOccupied port) s1) with (Return tt, warned port s1).
      cbv iota beta. rewrite Hmgr. cbn [warned log snd mgr]. rewrite Hm. reflexivity.
    + intro attempt'. cbn [failover_loop]. rewrite !bind_eq.
      change (log Info (MsgTry port) s) with (Return tt, trying port s). cbv iota beta.
      rewrite !bind_eq.
      destruct (_is_port_occupied env port (trying port s)) as [[b | e] s1];
        cbn [fst snd] in *; [injection Hp as -> | discriminate].
      rewrite !bind_eq.
      change (log Warning (MsgOccupied port) s1) with (Return tt, warned port s1).
      cbv iota beta. apply Hsame.
Qed.

(** X12.  When the occupancy probe answers "occupied" for every candidate,
    an enabled manager with a frontend path returns the failure whose text
    names the whole list [[start_port] + fallback_ports], the manager is
    unchanged, and the method that would start the server plays no part:
    the run is the same whatever that method would do. *)
Theorem all_candidates_occupied :
  forall env attempt s,
    enabled (config (mgr s)) = true ->
    frontend_path (config (mgr s)) <> None ->
    let ports := [start_port (config (mgr s))] ++ fallback_ports (config (mgr s)) in
    (forall port s', In port ports -> fst (_is_port_occupied env port s') = Return true) ->
    fst (start_with_failover_on env attempt s) =
      Return (failure ("Impossible de démarrer le frontend sur les ports configurés: "
                       +++ repr_int_list ports)) /\
    mgr (snd (start_with_failover_on env attempt s)) = mgr s /\
    forall attempt',
      start_with_failover_on env attempt' s = start_with_failover_on env attempt s.
Proof.
  intros env attempt s He Hp ports Hocc.
  assert (Hrun : forall a,
    start_with_failover_on env a s =
    match failover_loop env a ports s with
    | (Return (Some result), s') => (Return result, s')
    | (Return None, s') =>
        (Return (failure (exhausted_message ports)),
         snd (log Error (MsgExhausted (exhausted_message ports)) s'))
    | (Raise e, s') => (Raise e, s')
    end).
  { intro a. unfold start_with_failover_on. rewrite bind_get_mgr, He. cbn [negb].
    destruct (frontend_path (config (mgr s))); [|contradiction].
    cbv zeta. rewrite bind_eq. fold ports.
    destruct (failover_loop env a ports s) as [[[result|] | e] s']; reflexivity. }
  destruct (failover_loop_all_occupied env attempt ports s Hocc) as (Hnone & Hm & Hsame).
  split; [|split].
  - rewrite Hrun.
    destruct (failover_loop env attempt ports s) as [[[result|] | e] s'];
      cbn [fst] in Hnone; try discriminate. reflexivity.
  - rewrite Hrun.
    destruct (failover_loop env attempt ports s) as [[[result|] | e] s'];
      cbn [fst snd] in *; try discriminate. exact Hm.
  - intro attempt'. now rewrite !Hrun, Hsame.
Qed.

Lemma all_candidates_occupied_witness :
  fst (start_with_failover_on all_taken up_on_3001 (at_start fresh)) =
  Return (failure
    "Impossible de démarrer le frontend sur les ports configurés: [3000, 3001, 3002]").
Proof.
  apply (all_candidates_occupied all_taken up_on_3001 (at_start fresh));
    [reflexivity | discriminate |].
  intros port s' [<- | [<- | [<- | []]]]; reflexivity.
Defined.

(** ** The entry point without a project *)

Lemma is_some_find A (f : A -> bool) l : is_some (find f l) = existsb f l.
Proof. induction l as [|a l IH]; simpl; [reflexivity|]. now destruct (f a). Qed.

(** X13.  Over a file system that holds still, [python frontend_manager.py
    build] logs an error and exits with status 1 exactly when none of the
    three candidate directories under the working directory holds a
    [package.json]; when one does, the run ends in the [AttributeError] of
    the missing [build] method. *)
Theorem build_entry_point_outcome :
  forall env fs s,
    (forall t p, path_exists env t p = inr (fs p)) ->
    fst (main_build env s) =
    if existsb (fun dir => fs (path_join dir "package.json"))
         [ path_join (cwd env) "interface_web";
           path_join (cwd env) "frontend";
           path_join (cwd env) "services/web_api/interface-web-argumentative" ]
    then Raise (AttributeError "'FrontendManager' object has no attribute 'build'")
    else Return 1.
Proof.
  intros env fs s Hfs. unfold main_build. rewrite bind_eq, init_outcome.
  change (raw_path empty_config) with (@None string).
  pose proof (_find_frontend_path_resolve env fs None s Hfs) as Hc.
  assert (Hfound : is_some (resolve env fs None) =
                   existsb (fun dir => fs (path_join dir "package.json"))
                     (candidate_paths env)) by apply is_some_find.
  unfold candidate_paths in Hfound. rewrite <- Hfound.
  destruct (_find_frontend_path env None s) as [[found | e] s1];
    cbn [fst] in Hc; [|discriminate].
  assert (Hf : found = resolve env fs None) by congruence.
  rewrite Hf, bind_get_mgr.
  cbn [mgr config enabled frontend_path dict_get raw_enabled empty_config negb orb].
  destruct (resolve env fs None); reflexivity.
Qed.

Lemma build_entry_point_outcome_witness :
  fst (main_build (with_path_exists (fun _ _ => inr false) friendly) (at_start fresh)) = Return 1.
Proof.
  apply (build_entry_point_outcome (with_path_exists (fun _ _ => inr false) friendly)
           (fun _ => false) (at_start fresh)).
  reflexivity.
Defined.

(** ** Stop, then the other operations *)

(** X14.  A second [stop] right after a first one does nothing: it returns
    at once, performs no effect and leaves the state of the first. *)
Theorem second_stop_does_nothing :
  forall env s, stop env (snd (stop env s)) = (Return tt, snd (stop env s)).
Proof.
  intros env s. destruct (process (runtime (mgr s))) as [p|] eqn:Hp.
  - destruct (stop_with_process env s p Hp) as (s' & Hs & _ & Hr & _).
    rewrite Hs. cbn [snd]. apply stop_without_process. now rewrite Hr.
  - rewrite (stop_without_process env s Hp). cbn [snd].
    now apply stop_without_process.
Qed.

(** X15.  Once a held process has been stopped, [health_check] answers
    [False] without sending any request and without any other effect. *)
Theorem health_check_after_stop :
  forall env s p,
    process (runtime (mgr s)) = Some p ->
    health_check env (snd (stop env s)) = (Return false, snd (stop env s)).
Proof.
  intros env s p Hp.
  destruct (stop_with_process env s p Hp) as (s' & Hs & _ & Hr & _).
  rewrite Hs. cbn [snd]. unfold health_check. rewrite bind_get_mgr, Hr. reflexivity.
Qed.

Lemma health_check_after_stop_witness :
  health_check friendly (snd (stop friendly (at_start after_start))) =
  (Return false, snd (stop friendly (at_start after_start))).
Proof.
  apply (health_check_after_stop friendly (at_start after_start) {| popen_pid := 4242 |}).
  reflexivity.
Defined.

(** ** The occupancy probe without a usable table *)

Lemma scan_connections_without_laddr port before c after :
  forallb has_laddr before = true ->
  existsb (listens_on port) before = false ->
  laddr_port c = None ->
  exists e, scan_connections port (before ++ c :: after) = inl e /\
            is_AccessDenied_or_AttributeError e = true.
Proof.
  intros Hl He Hc. induction before as [|b before IH]; simpl in *.
  - rewrite Hc. eexists. split; reflexivity.
  - unfold has_laddr at 1 in Hl. unfold listens_on at 1 in He.
    destruct (laddr_port b) as [p|]; simpl in *; [|discriminate].
    apply orb_false_elim in He as [Hb He]. rewrite Hb. now apply IH.
Qed.

(** X16.  When reading the connection table is denied, or when an entry
    without a local address comes before any listener on the port,
    [_is_port_occupied] answers [False] and has made no other call than the
    table read: the fallback enters the client session with a plain [with],
    which fails before any request is sent, and the bare [except] swallows
    that.  No exception leaves the method, and a listener listed after the
    faulty entry is not seen. *)
Theorem port_probe_fallback_sends_nothing :
  forall env port s,
    (net_connections env (tick s) = inl AccessDenied \/
     exists before c after,
       net_connections env (tick s) = inr (before ++ c :: after) /\
       forallb has_laddr before = true /\
       existsb (listens_on port) before = false /\
       laddr_port c = None) ->
    _is_port_occupied env port s =
    (Return false,
     {| mgr := mgr s; tick := S (tick s);
        clock := clock s + Z.of_N (delay env (tick s));
        trace := trace s ++ [EvNetConnections] |}).
Proof.
  intros env port s H. unfold _is_port_occupied. run_monad.
  destruct H as [Hden | (before & c & after & Hnet & Hl & He & Hc)].
  - rewrite Hden. simpl. now rewrite !Z.add_0_r.
  - rewrite Hnet. simpl.
    destruct (scan_connections_without_laddr port before c after Hl He Hc)
      as (e & -> & Hcatch).
    simpl. rewrite Hcatch. simpl. now rewrite !Z.add_0_r.
Qed.

Lemma port_probe_fallback_sends_nothing_witness :
  _is_port_occupied
    (with_net_connections
       (fun _ => inr [ {| laddr_port := None; conn_status := "NONE" |};
                       {| laddr_port := Some 3000; conn_status := "LISTEN" |} ])
       friendly)
    3000 (at_start fresh) =
  (Return false,
   {| mgr := fresh; tick := 1; clock := 5; trace := [EvNetConnections] |}).
Proof.
  rewrite (port_probe_fallback_sends_nothing
             (with_net_connections
                (fun _ => inr [ {| laddr_port := None; conn_status := "NONE" |};
                                {| laddr_port := Some 3000; conn_status := "LISTEN" |} ])
                friendly)
             3000 (at_start fresh)).
  - reflexivity.
  - right. exists [], {| laddr_port := None; conn_status := "NONE" |},
      [ {| laddr_port := Some 3000; conn_status := "LISTEN" |} ].
    repeat split.
Defined.

(** ** How many requests the wait sends *)

Lemma gets_app a b : gets (a ++ b) = gets a ++ gets b.
Proof. apply flat_map_app. Qed.

Lemma gets_not_get evs : Forall not_get evs -> gets evs = [].
Proof.
  induction 1 as [|ev evs Hev _ IH]; [reflexivity|].
  unfold gets in *. simpl. rewrite IH. destruct ev; simpl in *; tauto.
Qed.

Section Requests.

Variable env : Env.

Lemma probe_ready_gets start url s :
  exists evs,
    trace (snd (probe_ready env start url s)) = trace s ++ evs /\
    (List.length (gets evs) <= 1)%nat.
Proof.
  unfold probe_ready. run_monad.
  destruct (http_get env (tick s) url) as [e | status]; simpl.
  - destruct (is_ClientError e); simpl; eexists;
      (split; [rewrite <- ?app_assoc; reflexivity | simpl; lia]).
  - destruct (status =? 200); simpl; eexists;
      (split; [rewrite <- ?app_assoc; reflexivity | simpl; lia]).
Qed.

Lemma poll_cycle_gets start detected s :
  exists evs,
    trace (snd (poll_cycle env start detected s)) = trace s ++ evs /\
    (List.length (gets evs) <= 1)%nat.
Proof.
  unfold poll_cycle. rewrite bind_eq.
  assert (Hp : keeps not_get (poll env)) by (unfold poll; keeps_all; exact I).
  destruct (Hp s) as (_ & _ & e1 & Ht1 & Hf1). apply gets_not_get in Hf1.
  destruct (poll env s) as [[[code|] | e] s1]; cbn [snd] in *.
  - rewrite bind_eq. simpl. exists (e1 ++ [EvLog Error (MsgExitedEarly code)]).
    split; [now rewrite Ht1, app_assoc | rewrite gets_app, Hf1; simpl; lia].
  - rewrite bind_eq.
    assert (Hs : keeps not_get (scrape_log env detected)).
    { unfold scrape_log. keeps_all; try exact I. apply keeps_exists_; exact I. }
    destruct (Hs s1) as (_ & _ & e2 & Ht2 & Hf2). apply gets_not_get in Hf2.
    destruct (scrape_log env detected s1) as [[d | e] s2]; cbn [snd] in *.
    + cbv zeta. rewrite bind_eq.
      destruct (probe_ready_gets start (url_of_port d) s2) as (e3 & Ht3 & Hl3).
      destruct (probe_ready env start (url_of_port d) s2) as [[[|] | e] s3];
        cbn [snd] in *.
      * exists (e1 ++ e2 ++ e3). split;
          [simpl; now rewrite Ht3, Ht2, Ht1, <- !app_assoc
          | rewrite !gets_app, Hf1, Hf2; exact Hl3].
      * rewrite bind_eq. simpl. exists (e1 ++ e2 ++ e3 ++ [EvSleep 2]). split;
          [now rewrite Ht3, Ht2, Ht1, <- !app_assoc
          | rewrite !gets_app, Hf1, Hf2; simpl; rewrite app_nil_r; exact Hl3].
      * exists (e1 ++ e2 ++ e3). split;
          [now rewrite Ht3, Ht2, Ht1, <- !app_assoc
          | rewrite !gets_app, Hf1, Hf2; exact Hl3].
    + exists (e1 ++ e2). split;
        [now rewrite Ht2, Ht1, <- !app_assoc | rewrite gets_app, Hf1, Hf2; simpl; lia].
  - exists e1. split; [exact Ht1 | rewrite Hf1; simpl; lia].
Qed.

Lemma wait_loop_gets cycles start_time end_time detected url s :
  exists evs,
    trace (snd (wait_loop env cycles start_time end_time detected url s)) = trace s ++ evs /\
    (gets evs = [] \/
     2000 * (Z.of_nat (List.length (gets evs)) - 1) < end_time - clock s).
Proof.
  revert detected url s.
  induction cycles as [|n IH]; intros detected url s;
    cbn [wait_loop]; rewrite bind_time_time;
    destruct (Z.ltb_spec (clock s) end_time) as [Hlt | Hge].
  - exists []. rewrite app_nil_r. split; [reflexivity | now left].
  - rewrite bind_get_mgr. destruct url; simpl.
    + eexists. split; [reflexivity | now left].
    + exists []. rewrite app_nil_r. split; [reflexivity | now left].
  - rewrite bind_eq.
    destruct (poll_cycle_gets start_time detected s) as (e1 & Ht1 & Hl1).
    pose proof (poll_cycle_again env start_time detected s) as Hslept.
    destruct (poll_cycle env start_time detected s) as [[[r | d u] | e] s1];
      cbn [fst snd] in *.
    + exists e1. split; [exact Ht1|].
      destruct (gets e1) as [|g rest]; [now left | right].
      cbn [List.length] in Hl1 |- *. lia.
    + destruct (IH d (Some u) s1) as (e2 & Ht2 & Hb2).
      specialize (Hslept d u eq_refl).
      exists (e1 ++ e2). split; [now rewrite Ht2, Ht1, app_assoc|].
      rewrite gets_app, List.length_app.
      destruct (gets e1) as [|g1 rest1]; cbn [List.length Nat.add] in Hl1 |- *.
      * destruct Hb2 as [-> | Hb2]; [now left | right; lia].
      * right. destruct Hb2 as [-> | Hb2]; cbn [List.length]; lia.
    + exists e1. split; [exact Ht1|].
      destruct (gets e1) as [|g rest]; [now left | right].
      cbn [List.length] in Hl1 |- *. lia.
  - rewrite bind_get_mgr. destruct url; simpl.
    + eexists. split; [reflexivity | now left].
    + exists []. rewrite app_nil_r. split; [reflexivity | now left].
Qed.

End Requests.

(** X17.  The wait sends readiness requests at most one per two seconds of
    its time budget: with [n] the number of HTTP requests sent during one
    call of [_wait_for_frontend], either [n = 0] or
    [2 * (n - 1) < timeout_seconds], however slow or fast the environment
    answers. *)
Theorem wait_sends_bounded_requests :
  forall env initial_port s,
    exists evs,
      trace (snd (_wait_for_frontend env initial_port s)) = trace s ++ evs /\
      (gets evs = [] \/
       2 * (Z.of_nat (List.length (gets evs)) - 1) < timeout_seconds (config (mgr s))).
Proof.
  intros env initial_port s.
  destruct (_wait_for_frontend_eq env initial_port s) as (w & Hw & _ & ->).
  destruct (wait_loop_gets env
              (max_cycles (1000 * timeout_seconds (config (mgr s))))
              (clock s) (clock s + 1000 * timeout_seconds (config (mgr s)))
              initial_port None s) as (evs & Ht & Hb).
  rewrite Hw in Ht. exists evs. split.
  - destruct w as [[[ready|] | e] s']; exact Ht.
  - destruct Hb as [Hb | Hb]; [now left | right; lia].
Qed.
